(** * A model of [pdf_processor.py]: page classification and row extraction

    Text is modelled as [string] over ASCII characters.  Python's
    [str.strip], [str.upper], [str.split('\n')], the [in] substring test and
    the regular expressions used by the source ([re.match], [re.search],
    [re.split]) are given executable definitions below. *)

From Stdlib Require Import Strings.String Strings.Ascii Lists.List Arith Lia
  Bool Numbers.DecimalString Sorting.Sorted.
Import ListNotations.
Open Scope string_scope.
Open Scope bool_scope.
Open Scope nat_scope.

(** ** Characters *)

Definition code (c : ascii) : nat := nat_of_ascii c.

(** Python's [str.isspace] / regex [\s] on ASCII: [\t\n\v\f\r], the
    separators [\x1c]-[\x1f] and the space. *)
Definition is_space (c : ascii) : bool :=
  let n := code c in
  (n =? 32) || ((9 <=? n) && (n <=? 13)) || ((28 <=? n) && (n <=? 31)).

(** regex [\d] *)
Definition is_digit (c : ascii) : bool :=
  let n := code c in (48 <=? n) && (n <=? 57).

Definition is_upper (c : ascii) : bool :=
  let n := code c in (65 <=? n) && (n <=? 90).

Definition is_lower (c : ascii) : bool :=
  let n := code c in (97 <=? n) && (n <=? 122).

(** regex [[A-Za-z]] *)
Definition is_letter (c : ascii) : bool := is_upper c || is_lower c.

(** regex [[A-Z0-9\-]] (no IGNORECASE in the table code) *)
Definition is_partchar (c : ascii) : bool :=
  is_upper c || is_digit c || (code c =? 45).

(** regex [\w] *)
Definition is_word (c : ascii) : bool :=
  is_letter c || is_digit c || (code c =? 95).

(** regex [.] (anything but a newline) *)
Definition not_newline (c : ascii) : bool := negb (code c =? 10).

(** regex [\.] *)
Definition is_dot (c : ascii) : bool := code c =? 46.

(** the character set of [str.strip(' .')] *)
Definition is_space_or_dot (c : ascii) : bool := (code c =? 32) || is_dot c.

(** [W] and [M] under [re.IGNORECASE] *)
Definition is_W_ci (c : ascii) : bool := (code c =? 87) || (code c =? 119).
Definition is_M_ci (c : ascii) : bool := (code c =? 77) || (code c =? 109).

Definition char_upper (c : ascii) : ascii :=
  if is_lower c then ascii_of_nat (code c - 32) else c.

(** ** Strings *)

(** [str.upper] *)
Fixpoint upper (s : string) : string :=
  match s with
  | EmptyString => EmptyString
  | String c t => String (char_upper c) (upper t)
  end.

Fixpoint lstrip (p : ascii -> bool) (s : string) : string :=
  match s with
  | EmptyString => EmptyString
  | String c t => if p c then lstrip p t else s
  end.

Fixpoint rstrip (p : ascii -> bool) (s : string) : string :=
  match s with
  | EmptyString => EmptyString
  | String c t =>
      let t' := rstrip p t in
      if String.eqb t' EmptyString && p c then EmptyString else String c t'
  end.

(** [str.strip(chars)] for the character set [p] *)
Definition strip_by (p : ascii -> bool) (s : string) : string :=
  rstrip p (lstrip p s).

(** [str.strip()] *)
Definition strip (s : string) : string := strip_by is_space s.

(** [str.strip(' .')] *)
Definition strip_sd (s : string) : string := strip_by is_space_or_dot s.

(** [s.split(sep)] for a one-character separator *)
Fixpoint split_char (sep : ascii) (s : string) : list string :=
  match s with
  | EmptyString => [EmptyString]
  | String c t =>
      if Ascii.eqb c sep then EmptyString :: split_char sep t
      else match split_char sep t with
           | h :: r => String c h :: r
           | [] => [String c EmptyString]
           end
  end.

Definition newline : ascii := ascii_of_nat 10.

(** [text.split('\n')] *)
Definition split_lines (s : string) : list string := split_char newline s.

(** [needle in hay] *)
Fixpoint contains (needle hay : string) : bool :=
  String.prefix needle hay ||
  match hay with
  | EmptyString => false
  | String _ t => contains needle t
  end.

(** [" ".join(xs)] *)
Fixpoint join_with (sep : string) (xs : list string) : string :=
  match xs with
  | [] => EmptyString
  | [x] => x
  | x :: r => x ++ sep ++ join_with sep r
  end.

Definition string_of_nat (n : nat) : string :=
  NilEmpty.string_of_uint (Nat.to_uint n).

(** ** Regular expressions

    The patterns of the source are built from character classes, repetitions
    [p{n,}] of a class (which covers [p+], [p*], [p{4,}]), concatenation and
    alternation.  [rem r s] lists the suffixes of [s] left after [r] matches a
    prefix of [s], in the order Python's backtracking matcher tries them:
    greedy repetition tries the longest run first, and alternation tries its
    left branch first.  The first element is the match [re.match] returns. *)

Inductive regex : Type :=
| RCls (p : ascii -> bool)
| RRep (p : ascii -> bool) (n : nat)
| RSeq (r1 r2 : regex)
| RAlt (r1 r2 : regex).

(** the suffixes after taking 0, 1, 2, ... characters of class [p] *)
Fixpoint run_tails (p : ascii -> bool) (s : string) : list string :=
  s :: match s with
       | EmptyString => []
       | String c t => if p c then run_tails p t else []
       end.

Fixpoint rem (r : regex) (s : string) : list string :=
  match r with
  | RCls p =>
      match s with
      | String c t => if p c then [t] else []
      | EmptyString => []
      end
  | RRep p n => rev (skipn n (run_tails p s))
  | RSeq r1 r2 => flat_map (rem r2) (rem r1 s)
  | RAlt r1 r2 => rem r1 s ++ rem r2 s
  end.

(** [re.match(r, s)] is truthy *)
Definition re_matches (r : regex) (s : string) : bool :=
  match rem r s with [] => false | _ => true end.

(** [re.search(r, s).group(0)], [None] when there is no match *)
Fixpoint re_search (r : regex) (s : string) : option string :=
  match rem r s with
  | rest :: _ => Some (substring 0 (String.length s - String.length rest) s)
  | [] =>
      match s with
      | EmptyString => None
      | String _ t => re_search r t
      end
  end.

Definition re_found (r : regex) (s : string) : bool :=
  match re_search r s with Some _ => true | None => false end.

(** [re.split(r, s)]: the source's split patterns never match the empty
    string, so empty matches are not considered. [fuel] is one more than the
    length of [s]. *)
Fixpoint split_go (fuel : nat) (r : regex) (s cur : string) : list string :=
  match fuel with
  | O => [cur ++ s]
  | S f =>
      let step :=
        match s with
        | EmptyString => [cur]
        | String c t => split_go f r t (cur ++ String c EmptyString)
        end in
      match rem r s with
      | rest :: _ =>
          if String.length rest <? String.length s then cur :: split_go f r rest EmptyString
          else step
      | [] => step
      end
  end.

Definition re_split (r : regex) (s : string) : list string :=
  split_go (S (String.length s)) r s EmptyString.

(** The patterns of the source. *)

(** [^\d+\s+[A-Z0-9\-]{4,}] *)
Definition pat_spaced : regex :=
  RSeq (RRep is_digit 1) (RSeq (RRep is_space 1) (RRep is_partchar 4)).

(** [^\d+\.+[A-Z0-9\-]{4,}] *)
Definition pat_dotted : regex :=
  RSeq (RRep is_digit 1) (RSeq (RRep is_dot 1) (RRep is_partchar 4)).

(** [^\d+.*[A-Z0-9\-]{5,}.*[A-Za-z]] *)
Definition pat_general : regex :=
  RSeq (RRep is_digit 1)
    (RSeq (RRep not_newline 0)
       (RSeq (RRep is_partchar 5) (RSeq (RRep not_newline 0) (RCls is_letter)))).

(** [^\d+] *)
Definition pat_digits : regex := RRep is_digit 1.

(** [[A-Z0-9\-]{4,}] *)
Definition pat_partno : regex := RRep is_partchar 4.

(** [\s{2,}] *)
Definition split_spaces2 : regex := RRep is_space 2.

(** [\.{3,}] *)
Definition split_dots3 : regex := RRep is_dot 3.

(** [\.{2,}|\s{3,}] *)
Definition split_dots2_spaces3 : regex := RAlt (RRep is_dot 2) (RRep is_space 3).

(** [\.{3,}|\s{3,}] *)
Definition split_dots3_spaces3 : regex := RAlt (RRep is_dot 3) (RRep is_space 3).

(** the pattern [WM\d+\w*] (the whole of group 1) with [re.IGNORECASE] *)
Definition pat_model : regex :=
  RSeq (RCls is_W_ci) (RSeq (RCls is_M_ci) (RSeq (RRep is_digit 1) (RRep is_word 0))).

(** ** [extract_model_name_simple] *)

Definition slash : ascii := ascii_of_nat 47.
Definition dot : ascii := ascii_of_nat 46.

(** index of the last occurrence of [c] in [s] ([str.rfind]) *)
Fixpoint rfind (c : ascii) (s : string) : option nat :=
  match s with
  | EmptyString => None
  | String d t =>
      match rfind c t with
      | Some i => Some (S i)
      | None => if Ascii.eqb d c then Some 0 else None
      end
  end.

(** [Path(p).name] on POSIX paths: the last component once the empty and
    [.] components are dropped (as [PurePosixPath] parses them), [""] when
    none is left *)
Definition path_name (p : string) : string :=
  last (filter (fun x => negb (String.eqb x EmptyString || String.eqb x "."))
          (split_char slash p))
    EmptyString.

(** [PurePath.stem]: [name[:i]] for [i = name.rfind('.')] when
    [0 < i < len(name) - 1], else [name] *)
Definition path_stem (p : string) : string :=
  let name := path_name p in
  match rfind dot name with
  | Some i =>
      if (0 <? i) && (i <? String.length name - 1) then substring 0 i name
      else name
  | None => name
  end.

(** the part after [Path(pdf_path).stem]: search, upper-case or fall back *)
Definition model_of_stem (filename : string) : string :=
  match re_search pat_model filename with
  | Some m => upper m
  | None => filename
  end.

Definition extract_model_name_simple (pdf_path : string) : string :=
  model_of_stem (path_stem pdf_path).

(** ** [simple_table_check] *)

Definition table_indicators : list string :=
  ["NO."; "PART NO."; "PART NAME"; "QTY"; "REMARKS"].

(** [sum(1 for indicator in table_indicators if indicator in text.upper())] *)
Definition header_hits (text : string) : nat :=
  List.length (filter (fun ind => contains ind (upper text)) table_indicators).

(** the three alternatives of the data-row test, on a stripped line *)
Definition looks_like_data_row (line : string) : bool :=
  re_matches pat_spaced line || re_matches pat_dotted line
  || re_matches pat_general line.

(** one iteration of [for i, line in enumerate(lines[:15])] *)
Definition data_row_step (acc : nat) (raw : string) : nat :=
  let line := strip raw in
  if String.eqb line EmptyString then acc
  else if looks_like_data_row line then S acc else acc.

Definition data_row_count (text : string) : nat :=
  fold_left data_row_step (firstn 15 (split_lines text)) 0.

Definition simple_table_check (text : string) : bool :=
  (2 <=? header_hits text) || (3 <=? data_row_count text).

(** ** [extract_table_basic] *)

(** the title loop over [lines[:10]] *)
Fixpoint find_title (lines : list string) : string :=
  match lines with
  | [] => EmptyString
  | raw :: r =>
      let line := strip raw in
      if (5 <? String.length line) && negb (String.prefix "PAGE" line)
         && negb (String.prefix "WM63SLF" line)
      then line else find_title r
  end.

Definition skip_words : list string :=
  ["NO."; "PART NO."; "PART NAME"; "QTY"; "REMARKS"; "PAGE"; "MIXER"; "MANUAL";
   "REV."].

(** [[p.strip() for p in parts if p.strip()]] *)
Definition clean_ws (parts : list string) : list string :=
  map strip (filter (fun p => negb (String.eqb (strip p) EmptyString)) parts).

(** [[p.strip(' .') for p in parts if p.strip(' .')]] *)
Definition clean_sd (parts : list string) : list string :=
  map strip_sd (filter (fun p => negb (String.eqb (strip_sd p) EmptyString)) parts).

(** [row_data] as left by the three pattern branches, for a stripped line
    that passed the length and header filters *)
Definition row_data_of (line : string) : option (list string) :=
  if re_matches pat_spaced line then
    let parts := re_split split_spaces2 line in
    if 3 <=? List.length parts then Some (clean_ws parts) else None
  else if contains "..." line && re_matches pat_dotted line then
    Some (clean_sd (re_split split_dots3 line))
  else if re_matches pat_digits line && re_found pat_partno line then
    let parts := re_split split_dots2_spaces3 line in
    if 2 <=? List.length parts then Some (clean_sd parts) else None
  else None.

(** [while len(row_data) < 5: row_data.append("")] then [row_data[:5]] *)
Definition pad_row (row_data : list string) : list string :=
  firstn 5 (row_data ++ repeat EmptyString (5 - List.length row_data))%list.

(** the filter at the top of the row loop: [not line or len(line) < 10],
    the header words, and the page title *)
Definition line_skipped (page_title line : string) : bool :=
  String.eqb line EmptyString || (String.length line <? 10)
  || existsb (fun w => contains w (upper line)) skip_words
  || String.eqb (upper line) (upper page_title).

(** [row_data] for one raw line, [None] when the line is skipped *)
Definition line_row_data (page_title raw : string) : option (list string) :=
  let line := strip raw in
  if line_skipped page_title line then None else row_data_of line.

(** what one raw line appends to [table_rows] *)
Definition process_line (page_title raw : string) : option (list string) :=
  match line_row_data page_title raw with
  | Some rd => if 2 <=? List.length rd then Some (pad_row rd) else None
  | None => None
  end.

Fixpoint table_rows_of (page_title : string) (lines : list string)
  : list (list string) :=
  match lines with
  | [] => []
  | raw :: r =>
      match process_line page_title raw with
      | Some row => row :: table_rows_of page_title r
      | None => table_rows_of page_title r
      end
  end.

Definition page_title_of (text : string) : string :=
  find_title (firstn 10 (split_lines text)).

Definition table_rows_of_text (text : string) : list (list string) :=
  table_rows_of (page_title_of text) (split_lines text).

Record TableData := {
  td_page : nat;
  td_model : string;
  td_title : string;
  td_rows : list (list string)
}.

(** What [fitz.Pixmap(page.parent, xref)] gives for one entry of
    [get_images()]: it raises, or it builds a [w x h] pixmap whose [save]
    succeeds ([true]) or raises ([false]). *)
Inductive Pixmap :=
| PixRaises
| PixBuilt (w h : nat) (save_ok : bool).

(** A page as PyMuPDF exposes it: [get_text()] ([None] when it raises), the
    pixmaps of its embedded images, the number of drawings, and whether
    rendering and saving the whole-page pixmap succeeds.  [get_images()] and
    [get_drawings()] are taken not to raise. *)
Record Page := {
  pg_text : option string;
  pg_images : list Pixmap;
  pg_drawings : nat;
  pg_render_ok : bool
}.

Definition extract_table_basic (page : Page) (page_num : nat) (model_name : string)
  : list TableData :=
  match pg_text page with
  | None => []
  | Some text =>
      let page_title := page_title_of text in
      match table_rows_of page_title (split_lines text) with
      | [] => []
      | rows =>
          [{| td_page := S page_num;
              td_model := model_name;
              td_title := if String.eqb page_title EmptyString
                          then "Parts Table - Page " ++ string_of_nat (S page_num)
                          else page_title;
              td_rows := rows |}]
      end
  end.

(** ** [extract_spare_parts_basic] *)

Record SparePart := {
  sp_model : string;
  sp_quantity : string;
  sp_part_number : string;
  sp_description : string
}.

Definition spare_part_of_line (model_name raw : string) : option SparePart :=
  let line := strip raw in
  if String.eqb line EmptyString || (String.length line <? 10) then None
  else if re_matches pat_general line then
    let parts := re_split split_dots3_spaces3 line in
    if 3 <=? List.length parts then
      match clean_sd parts with
      | c0 :: c1 :: rest =>
          match rest with
          | [] => None
          | _ => Some {| sp_model := model_name; sp_quantity := c0;
                         sp_part_number := c1;
                         sp_description := join_with " " rest |}
          end
      | _ => None
      end
    else None
  else None.

Definition extract_spare_parts_basic (page : Page) (model_name : string)
  : list SparePart :=
  match pg_text page with
  | None => []
  | Some text =>
      flat_map (fun raw => match spare_part_of_line model_name raw with
                           | Some e => [e] | None => [] end)
        (split_lines text)
  end.

(** ** [extract_image_basic]

    An image reference stands for the saved file
    [output/images/<model>/<model>_page_<page:02d>_img_<index>.png] for an
    embedded image and [.../<model>_page_<page:02d>_diagram.png] for the
    rendered page (page numbers and indices 1-based). *)

Inductive ImageRef :=
| ImgEmbedded (model : string) (page : nat) (index : nat)
| ImgDiagram (model : string) (page : nat).

(** the loop over [enumerate(image_list)]: a pixmap that cannot be built or
    saved is caught in the loop body and skipped *)
Fixpoint embedded_images (model_name : string) (page_no idx : nat)
  (imgs : list Pixmap) : list ImageRef :=
  match imgs with
  | [] => []
  | img :: r =>
      let rest := embedded_images model_name page_no (S idx) r in
      match img with
      | PixBuilt w h save_ok =>
          if (50 <? w) && (50 <? h) then
            if save_ok then ImgEmbedded model_name page_no idx :: rest else rest
          else rest
      | PixRaises => rest
      end
  end.

(** [page.get_text()] runs inside the outer [try]: when it raises, the
    function returns [[]] *)
Definition extract_image_basic (page : Page) (page_num : nat) (model_name : string)
  : list ImageRef :=
  match pg_text page with
  | None => []
  | Some _ =>
      (embedded_images model_name (S page_num) 1 (pg_images page)
      ++ (if 100 <? pg_drawings page then
            if pg_render_ok page then [ImgDiagram model_name (S page_num)] else []
          else []))%list
  end.

(** ** [find_spare_parts_page_simple] *)

Fixpoint find_spare_parts_from (page_num : nat) (pages : list Page) : option nat :=
  match pages with
  | [] => None
  | pg :: r =>
      match pg_text pg with
      | Some text =>
          if contains "SUGGESTED SPARE PARTS" (upper text) then Some page_num
          else find_spare_parts_from (S page_num) r
      | None => find_spare_parts_from (S page_num) r
      end
  end.

Definition find_spare_parts_page_simple (doc : list Page) : option nat :=
  find_spare_parts_from 0 doc.

(** ** [process_pdf_simple] *)

Inductive Status := StUnknown | StSuccess | StError (detail : string).

Record Results := {
  r_model_name : string;
  r_spare_parts_data : list SparePart;
  r_images : list ImageRef;
  r_tables : list TableData;
  r_status : Status
}.

Definition add_tables (res : Results) (ts : list TableData) : Results :=
  {| r_model_name := r_model_name res; r_spare_parts_data := r_spare_parts_data res;
     r_images := r_images res; r_tables := r_tables res ++ ts;
     r_status := r_status res |}.

Definition add_images (res : Results) (is : list ImageRef) : Results :=
  {| r_model_name := r_model_name res; r_spare_parts_data := r_spare_parts_data res;
     r_images := r_images res ++ is; r_tables := r_tables res;
     r_status := r_status res |}.

Definition set_status (res : Results) (st : Status) : Results :=
  {| r_model_name := r_model_name res; r_spare_parts_data := r_spare_parts_data res;
     r_images := r_images res; r_tables := r_tables res; r_status := st |}.

(** one iteration of the loop over the pages after the anchor; a page whose
    text cannot be read raises inside the [try] and is skipped *)
Definition process_page (model_name : string) (page_num : nat) (page : Page)
  (res : Results) : Results :=
  match pg_text page with
  | None => res
  | Some text =>
      if String.length (strip text) <? 100 then res
      else if simple_table_check text then
        add_tables res (extract_table_basic page page_num model_name)
      else add_images res (extract_image_basic page page_num model_name)
  end.

Fixpoint process_pages (model_name : string) (page_num : nat) (pages : list Page)
  (res : Results) : Results :=
  match pages with
  | [] => res
  | pg :: r => process_pages model_name (S page_num) r
                 (process_page model_name page_num pg res)
  end.

(** What the file system and PyMuPDF give for [pdf_path]: no such file,
    a file [fitz.open] refuses (with the exception text), or the pages. *)
Inductive PdfFile :=
| FileMissing
| OpenFault (detail : string)
| Opened (doc : list Page).

Definition empty_results (model_name : string) : Results :=
  {| r_model_name := model_name; r_spare_parts_data := []; r_images := [];
     r_tables := []; r_status := StUnknown |}.

Definition process_pdf_simple (pdf_path : string) (file : PdfFile) : option Results :=
  match file with
  | FileMissing => None
  | OpenFault e =>
      Some (set_status (empty_results (extract_model_name_simple pdf_path)) (StError e))
  | Opened doc =>
      let model_name := extract_model_name_simple pdf_path in
      let results := empty_results model_name in
      let results :=
        match find_spare_parts_page_simple doc with
        | None => results
        | Some k =>
            let sp := match nth_error doc k with
                      | Some pg => extract_spare_parts_basic pg model_name
                      | None => []
                      end in
            let results :=
              {| r_model_name := model_name; r_spare_parts_data := sp;
                 r_images := []; r_tables := []; r_status := StUnknown |} in
            process_pages model_name (S k) (skipn (S k) doc) results
        end in
      Some (set_status results StSuccess)
  end.

(** ** Faults and the [try] blocks that catch them

    The functions above give what the source computes once its [except]
    clauses have done their work.  Below, the same functions are written
    with the faults raised where PyMuPDF raises them ([fitz.open],
    [doc[i]], [get_text()], [fitz.Pixmap], [pix.save], [get_pixmap]) and
    with each [try]/[except] of the source; [doc.close()] is taken not to
    raise. *)

Inductive Exc (A : Type) : Type :=
| Ret (a : A)
| Raise (detail : string).
Arguments Ret {A} a.
Arguments Raise {A} detail.

Definition exc_bind {A B : Type} (m : Exc A) (f : A -> Exc B) : Exc B :=
  match m with
  | Ret a => f a
  | Raise e => Raise e
  end.

Notation "x <- m ;; k" := (exc_bind m (fun x => k))
  (at level 61, m at next level, right associativity).

(** [try: m except Exception as e: handler(e)] *)
Definition try_except {A : Type} (m : Exc A) (handler : string -> Exc A) : Exc A :=
  match m with
  | Ret a => Ret a
  | Raise e => handler e
  end.

Definition get_text (page : Page) : Exc string :=
  match pg_text page with
  | Some text => Ret text
  | None => Raise "get_text"
  end.

(** [doc[i]] *)
Definition doc_page (doc : list Page) (i : nat) : Exc Page :=
  match nth_error doc i with
  | Some pg => Ret pg
  | None => Raise "IndexError"
  end.

Definition fitz_open (file : PdfFile) : Exc (list Page) :=
  match file with
  | Opened doc => Ret doc
  | OpenFault e => Raise e
  | FileMissing => Raise "no such file"
  end.

(** the loop of [find_spare_parts_page_simple]: [Some i] is the [return],
    [None] goes on with the next page *)
Fixpoint find_loop (doc : list Page) (page_nums : list nat) : Exc (option nat) :=
  match page_nums with
  | [] => Ret None
  | page_num :: r =>
      found <- try_except
                 (page <- doc_page doc page_num ;;
                  text <- get_text page ;;
                  Ret (if contains "SUGGESTED SPARE PARTS" (upper text)
                       then Some page_num else None))
                 (fun _ => Ret None) ;;
      match found with
      | Some k => Ret (Some k)
      | None => find_loop doc r
      end
  end.

Definition find_spare_parts_page_exc (doc : list Page) : Exc (option nat) :=
  find_loop doc (seq 0 (List.length doc)).

Definition extract_spare_parts_exc (doc : list Page) (page_num : nat)
  (model_name : string) : Exc (list SparePart) :=
  try_except
    (page <- doc_page doc page_num ;;
     text <- get_text page ;;
     Ret (flat_map (fun raw => match spare_part_of_line model_name raw with
                               | Some e => [e] | None => [] end)
            (split_lines text)))
    (fun _ => Ret []).

Definition extract_table_exc (doc : list Page) (page_num : nat) (model_name : string)
  : Exc (list TableData) :=
  try_except
    (page <- doc_page doc page_num ;;
     text <- get_text page ;;
     let page_title := page_title_of text in
     Ret (match table_rows_of page_title (split_lines text) with
          | [] => []
          | rows =>
              [{| td_page := S page_num;
                  td_model := model_name;
                  td_title := if String.eqb page_title EmptyString
                              then "Parts Table - Page " ++ string_of_nat (S page_num)
                              else page_title;
                  td_rows := rows |}]
          end))
    (fun _ => Ret []).

(** the loop over [enumerate(image_list)], one [try] per image *)
Fixpoint embedded_loop (model_name : string) (page_no idx : nat) (imgs : list Pixmap)
  : Exc (list ImageRef) :=
  match imgs with
  | [] => Ret []
  | img :: r =>
      saved <- try_except
                 (match img with
                  | PixRaises => Raise "Pixmap"
                  | PixBuilt w h save_ok =>
                      if (50 <? w) && (50 <? h) then
                        if save_ok then Ret [ImgEmbedded model_name page_no idx]
                        else Raise "save"
                      else Ret []
                  end)
                 (fun _ => Ret []) ;;
      rest <- embedded_loop model_name page_no (S idx) r ;;
      Ret (saved ++ rest)%list
  end.

Definition extract_image_exc (page : Page) (page_num : nat) (model_name : string)
  : Exc (list ImageRef) :=
  try_except
    (text <- get_text page ;;
     embedded <- embedded_loop model_name (S page_num) 1 (pg_images page) ;;
     diagram <- (if 100 <? pg_drawings page then
                   try_except
                     (if pg_render_ok page then Ret [ImgDiagram model_name (S page_num)]
                      else Raise "get_pixmap")
                     (fun _ => Ret [])
                 else Ret []) ;;
     Ret (embedded ++ diagram)%list)
    (fun _ => Ret []).

(** [process_pdf_simple] mutates its [results] dict, and its [except]
    clause returns the dict as the [try] block left it: a state of
    [Results] threaded through the faults *)
Definition St (A : Type) : Type := Results -> Exc A * Results.

Definition st_ret {A : Type} (a : A) : St A := fun r => (Ret a, r).

Definition st_bind {A B : Type} (m : St A) (f : A -> St B) : St B :=
  fun r => match m r with
           | (Ret a, r') => f a r'
           | (Raise e, r') => (Raise e, r')
           end.

Definition st_lift {A : Type} (m : Exc A) : St A := fun r => (m, r).

Definition st_modify (f : Results -> Results) : St unit := fun r => (Ret tt, f r).

Definition st_get : St Results := fun r => (Ret r, r).

Definition st_try {A : Type} (m : St A) (handler : string -> St A) : St A :=
  fun r => match m r with
           | (Ret a, r') => (Ret a, r')
           | (Raise e, r') => handler e r'
           end.

Definition set_spare_parts (res : Results) (sp : list SparePart) : Results :=
  {| r_model_name := r_model_name res; r_spare_parts_data := sp;
     r_images := r_images res; r_tables := r_tables res; r_status := r_status res |}.

(** the body of the page loop, inside its [try ... except: continue] *)
Definition process_page_st (doc : list Page) (model_name : string) (page_num : nat)
  : St unit :=
  st_try
    (st_bind (st_lift (doc_page doc page_num)) (fun page =>
     st_bind (st_lift (get_text page)) (fun text =>
     if String.length (strip text) <? 100 then st_ret tt
     else if simple_table_check text then
       st_bind (st_lift (extract_table_exc doc page_num model_name)) (fun tables =>
       st_modify (fun r => add_tables r tables))
     else
       st_bind (st_lift (extract_image_exc page page_num model_name)) (fun images =>
       st_modify (fun r => add_images r images)))))
    (fun _ => st_ret tt).

Fixpoint page_loop (doc : list Page) (model_name : string) (page_nums : list nat)
  : St unit :=
  match page_nums with
  | [] => st_ret tt
  | page_num :: r =>
      st_bind (process_page_st doc model_name page_num) (fun _ =>
      page_loop doc model_name r)
  end.

Definition process_pdf_exc (pdf_path : string) (file : PdfFile) : Exc (option Results) :=
  match file with
  | FileMissing => Ret None
  | _ =>
      let model_name := extract_model_name_simple pdf_path in
      let body : St (option Results) :=
        st_bind (st_lift (fitz_open file)) (fun doc =>
        st_bind (st_lift (find_spare_parts_page_exc doc)) (fun found =>
        st_bind (match found with
                 | Some k =>
                     st_bind (st_lift (extract_spare_parts_exc doc k model_name)) (fun sp =>
                     st_bind (st_modify (fun r => set_spare_parts r sp)) (fun _ =>
                     page_loop doc model_name (seq (S k) (List.length doc - S k))))
                 | None => st_ret tt
                 end) (fun _ =>
        st_bind (st_modify (fun r => set_status r StSuccess)) (fun _ =>
        st_bind st_get (fun r => st_ret (Some r)))))) in
      let handler (e : string) : St (option Results) :=
        st_bind (st_modify (fun r => set_status r (StError e))) (fun _ =>
        st_bind st_get (fun r => st_ret (Some r))) in
      fst (st_try body handler (empty_results model_name))
  end.

(** ** Reference values for the examples *)

Definition nl : string := String newline EmptyString.

(** the synthetic page of the specification *)
Definition synthetic_page_text : string :=
  "1  EM948630  DECAL, PUSH TO STOP  1" ++ nl ++ "NO." ++ nl ++
  "2..........07055-034.........V-BELT, 4L340".

Definition synthetic_row1 : list string :=
  ["1"; "EM948630"; "DECAL, PUSH TO STOP"; "1"; ""].

Definition synthetic_row2 : list string :=
  ["2"; "07055-034"; "V-BELT, 4L340"; ""; ""].

Definition text_page (text : string) : Page :=
  {| pg_text := Some text; pg_images := []; pg_drawings := 0;
     pg_render_ok := true |}.

Definition starts_with_digit (s : string) : bool :=
  match s with
  | String c _ => is_digit c
  | EmptyString => false
  end.

(** ** Specification-side definitions and example inputs *)

(** The page of the C3 counterexample: a title, a row, and its wrapped
    description. *)
Definition wrapped_page_text : string :=
  "ENGINE PARTS LIST" ++ nl ++ "1  EM948630  DECAL, PUSH TO STOP  1" ++ nl ++
  "WITH ADHESIVE BACKING".

Definition mixer_row : string := "1  EM948630  MIXER PADDLE  1".

(** a line counted by the data-row test *)
Definition is_data_line (raw : string) : bool :=
  negb (String.eqb (strip raw) EmptyString) && looks_like_data_row (strip raw).

(** The data-row hit count the way the specification words it: over every
    line of the page. *)
Definition spec_data_row_hits (text : string) : nat :=
  List.length (filter is_data_line (split_lines text)).

Definition spec_is_table (text : string) : bool :=
  (2 <=? header_hits text) || (3 <=? spec_data_row_hits text).

(** the minimum-length screen of [process_pdf_simple] *)
Definition passes_screen (text : string) : bool :=
  negb (String.length (strip text) <? 100).

Fixpoint repeat_string (n : nat) (s : string) : string :=
  match n with
  | O => EmptyString
  | S k => s ++ repeat_string k s
  end.

(** fifteen lines of prose, then three catalogue rows *)
Definition late_rows_text : string :=
  repeat_string 15 ("SEE FIGURE" ++ nl) ++
  "1  EM948630  DECAL, PUSH TO STOP  1" ++ nl ++
  "2  EM948631  DECAL, CHOKE  1" ++ nl ++
  "3  EM948632  DECAL, WARNING  2".

(** the number of non-whitespace characters of a text *)
Fixpoint non_space_count (s : string) : nat :=
  match s with
  | EmptyString => 0
  | String c t => (if is_space c then 0 else 1) + non_space_count t
  end.

(** forty [X]s three spaces apart, on one line *)
Definition sparse_text : string := "X" ++ repeat_string 39 "   X".

Definition sparse_drawing_page : Page :=
  {| pg_text := Some sparse_text; pg_images := []; pg_drawings := 101;
     pg_render_ok := true |}.

Definition short_text : string := repeat_string 40 "X".

Definition spare_parts_marker : string := "SUGGESTED SPARE PARTS".

(** a table page and a diagram page, no anchor *)
Definition no_anchor_doc : list Page :=
  [text_page ("ENGINE PARTS LIST" ++ nl ++ late_rows_text); sparse_drawing_page].

Fixpoint take_while (p : ascii -> bool) (s : string) : string :=
  match s with
  | EmptyString => EmptyString
  | String c t => if p c then String c (take_while p t) else EmptyString
  end.

Fixpoint drop_while (p : ascii -> bool) (s : string) : string :=
  match s with
  | EmptyString => EmptyString
  | String c t => if p c then drop_while p t else s
  end.

(** A description of the model search without regular expressions: [W] or
    [w], then [M] or [m], then a digit, then the rest of the run of word
    characters. *)
Definition wm_token_at (w : ascii) (t : string) : option string :=
  match t with
  | String m (String d u) =>
      if is_W_ci w && is_M_ci m && is_digit d
      then Some (String w (String m (String d (take_while is_word u))))
      else None
  | _ => None
  end.

(** the token at the leftmost position where one starts *)
Fixpoint find_wm (s : string) : option string :=
  match s with
  | EmptyString => None
  | String w t =>
      match wm_token_at w t with
      | Some tok => Some tok
      | None => find_wm t
      end
  end.

(** ** Sheet names and columns of [save_results_simple] *)

Definition image_page (x : ImageRef) : nat :=
  match x with ImgEmbedded _ p _ => p | ImgDiagram _ p => p end.

Definition image_model (x : ImageRef) : string :=
  match x with ImgEmbedded m _ _ => m | ImgDiagram m _ => m end.

Fixpoint all_chars (p : ascii -> bool) (s : string) : bool :=
  match s with
  | EmptyString => true
  | String c t => p c && all_chars p t
  end.

(** [re.sub(r'[^\w\s]', '', title)] *)
Fixpoint drop_non_word_space (s : string) : string :=
  match s with
  | EmptyString => EmptyString
  | String c t =>
      if is_word c || is_space c then String c (drop_non_word_space t)
      else drop_non_word_space t
  end.

Definition underscore : ascii := ascii_of_nat 95.

(** [re.sub(r'\s+', '_', s)]: each maximal run of whitespace becomes one
    [_]; [in_run] says the previous character was whitespace *)
Fixpoint sub_spaces_go (in_run : bool) (s : string) : string :=
  match s with
  | EmptyString => EmptyString
  | String c t =>
      if is_space c then
        if in_run then sub_spaces_go true t
        else String underscore (sub_spaces_go true t)
      else String c (sub_spaces_go false t)
  end.

Definition sub_spaces (s : string) : string := sub_spaces_go false s.

(** [clean_title] of the sheet-name code, including [[:20]] *)
Definition clean_sheet_title (title : string) : string :=
  substring 0 20 (sub_spaces (drop_non_word_space title)).

(** the sheet name of one table *)
Definition sheet_name (td : TableData) : string :=
  let title := strip (td_title td) in
  let name :=
    if negb (String.eqb title EmptyString) then
      td_model td ++ "_P" ++ string_of_nat (td_page td) ++ "_" ++ clean_sheet_title title
    else td_model td ++ "_Page_" ++ string_of_nat (td_page td) in
  if 31 <? String.length name then substring 0 31 name else name.

Definition generic_headers : list string :=
  ["NO."; "PART_NO"; "PART_NAME"; "QTY"; "REMARKS"].

(** [while len(headers) < max_cols: headers.append(f"Column_{len(headers)+1}")] *)
Fixpoint pad_headers (fuel max_cols : nat) (headers : list string) : list string :=
  match fuel with
  | O => headers
  | S f =>
      if List.length headers <? max_cols then
        pad_headers f max_cols
          (app headers [("Column_" ++ string_of_nat (List.length headers + 1))%string])
      else headers
  end.

(** the column headers of a table's sheet (tables never carry ['headers']) *)
Definition sheet_headers (rows : list (list string)) : list string :=
  let max_cols :=
    match rows with
    | [] => 5
    | _ => fold_right Nat.max 0 (map (@List.length string) rows)
    end in
  pad_headers max_cols max_cols (firstn max_cols generic_headers).

Definition nonempty (s : string) : Prop := s <> EmptyString.

Definition spare_page : Page :=
  text_page ("SUGGESTED SPARE PARTS" ++ nl ++ "2   EM948630   DECAL, PUSH TO STOP").

Definition table_ok (m : string) (lo : nat) (td : TableData) : Prop :=
  lo < td_page td /\ td_model td = m /\
  Forall (fun row => List.length row = 5) (td_rows td).

Definition image_ok (m : string) (lo : nat) (x : ImageRef) : Prop :=
  lo < image_page x /\ image_model x = m.

Definition anchored_doc : list Page :=
  [text_page "COVER"; spare_page;
   text_page ("ENGINE PARTS LIST" ++ nl ++ late_rows_text); sparse_drawing_page].

Definition engine_table_page : Page :=
  text_page ("ENGINE PARTS LIST" ++ nl ++ "NO.   PART NO.   PART NAME   QTY" ++ nl ++
             "1  EM948630  DECAL, PUSH TO STOP  1" ++ nl ++
             "2  EM948631  DECAL, CHOKE  1" ++ nl ++
             "3  EM948632  DECAL, WARNING  2").

Definition frame_table_page : Page :=
  text_page ("FRAME PARTS LIST" ++ nl ++ "NO.   PART NO.   PART NAME   QTY" ++ nl ++
             "1  07055-034  V-BELT, 4L340  1" ++ nl ++
             "2  EM948700  FRAME WELDMENT  1" ++ nl ++
             "3  EM948701  AXLE, REAR  2").

(** an anchor, then two table pages around a diagram page *)
Definition tables_doc : list Page :=
  [text_page "COVER"; spare_page; engine_table_page; sparse_drawing_page;
   frame_table_page].

(** * Properties *)

(** ** Row padding and row collection *)

Lemma pad_row_spec (rd : list string) :
  List.length (pad_row rd) = 5 /\
  (List.length rd <= 5 -> pad_row rd = (rd ++ repeat EmptyString (5 - List.length rd))%list) /\
  (5 <= List.length rd -> pad_row rd = firstn 5 rd).
Proof.
  unfold pad_row; repeat split.
  - rewrite length_firstn, length_app, repeat_length; lia.
  - intros Hle. apply firstn_all2.
    rewrite length_app, repeat_length; lia.
  - intros Hge. rewrite firstn_app.
    replace (5 - List.length rd) with 0 by lia. simpl.
    rewrite app_nil_r; reflexivity.
Qed.

Lemma in_table_rows_of (t : string) (lines : list string) (row : list string) :
  In row (table_rows_of t lines) ->
  exists raw rd, In raw lines /\ line_row_data t raw = Some rd /\
    2 <= List.length rd /\ row = pad_row rd.
Proof.
  induction lines as [|raw r IH]; simpl; [tauto|].
  unfold process_line at 1.
  destruct (line_row_data t raw) as [rd|] eqn:Hrd.
  - destruct (2 <=? List.length rd) eqn:Hlen.
    + intros [<- | Hin].
      * exists raw, rd. apply Nat.leb_le in Hlen; auto.
      * destruct (IH Hin) as (raw' & rd' & ? & ? & ? & ?).
        exists raw', rd'; auto.
    + intros Hin. destruct (IH Hin) as (raw' & rd' & ? & ? & ? & ?).
      exists raw', rd'; auto.
  - intros Hin. destruct (IH Hin) as (raw' & rd' & ? & ? & ? & ?).
    exists raw', rd'; auto.
Qed.

Lemma table_rows_of_app (t : string) (l1 l2 : list string) :
  table_rows_of t (l1 ++ l2)%list = (table_rows_of t l1 ++ table_rows_of t l2)%list.
Proof.
  induction l1 as [|raw r IH]; simpl; [reflexivity|].
  destruct (process_line t raw); rewrite IH; reflexivity.
Qed.

(** ** A line that does not start with a digit yields no row *)

Lemma rem_digits_head (r : regex) (s : string) :
  starts_with_digit s = false -> rem (RSeq (RRep is_digit 1) r) s = [].
Proof.
  destruct s as [|c t]; simpl; [reflexivity|].
  intros H; rewrite H; reflexivity.
Qed.

Lemma row_data_of_no_digit (line : string) :
  starts_with_digit line = false -> row_data_of line = None.
Proof.
  intros H. unfold row_data_of, re_matches.
  unfold pat_spaced at 1; rewrite (rem_digits_head _ _ H).
  unfold pat_dotted at 1; rewrite (rem_digits_head _ _ H), andb_false_r.
  unfold pat_digits.
  destruct line as [|c t]; simpl in *; [reflexivity|].
  rewrite H; reflexivity.
Qed.

Lemma process_line_no_digit (t raw : string) :
  starts_with_digit (strip raw) = false -> process_line t raw = None.
Proof.
  intros H. unfold process_line, line_row_data.
  destruct (line_skipped t (strip raw)); [reflexivity|].
  rewrite (row_data_of_no_digit _ H); reflexivity.
Qed.

(** ** C1 *)

(** C1: every row of every table the extractor returns has exactly five
    fields; it comes from a delimiter-split row with at least two fields,
    right-padded with empty strings when shorter than five and cut to its
    first five fields when longer. *)
Theorem extract_table_rows_have_five_fields (page : Page) (page_num : nat)
  (model_name : string) (td : TableData) (row : list string) :
  In td (extract_table_basic page page_num model_name) -> In row (td_rows td) ->
  List.length row = 5 /\
  exists title raw rd,
    line_row_data title raw = Some rd /\ 2 <= List.length rd /\
    (List.length rd <= 5 -> row = (rd ++ repeat EmptyString (5 - List.length rd))%list) /\
    (5 <= List.length rd -> row = firstn 5 rd).
Proof.
  unfold extract_table_basic.
  destruct (pg_text page) as [text|]; [|simpl; tauto].
  destruct (table_rows_of (page_title_of text) (split_lines text)) as [|r0 rs] eqn:Hrows;
    [simpl; tauto|].
  intros [<- | []] Hin; cbn [td_rows] in Hin.
  rewrite <- Hrows in Hin.
  destruct (in_table_rows_of _ _ _ Hin) as (raw & rd & _ & Hrd & Hlen & ->).
  destruct (pad_row_spec rd) as (H5 & Hshort & Hlong).
  split; [exact H5|].
  exists (page_title_of text), raw, rd; auto.
Qed.

Lemma extract_table_rows_have_five_fields_witness :
  List.length synthetic_row2 = 5.
Proof.
  destruct (extract_table_rows_have_five_fields (text_page synthetic_page_text) 0
              "WM63SLF"
              {| td_page := 1; td_model := "WM63SLF";
                 td_title := "1  EM948630  DECAL, PUSH TO STOP  1";
                 td_rows := [synthetic_row2] |} synthetic_row2) as [H _].
  - vm_compute. left. reflexivity.
  - simpl. left. reflexivity.
  - exact H.
Defined.

(** ** C2 *)

(** C2 (counterexample): on the synthetic page the extractor does not
    return the two rows the specification lists. *)
Lemma synthetic_page_not_two_rows :
  table_rows_of_text synthetic_page_text <> [synthetic_row1; synthetic_row2].
Proof. vm_compute. discriminate. Qed.

(** C2 (amended): on the synthetic page the first line is taken as the page
    title and skipped, ["NO."] is dropped, and the single table has the one
    row [["2";"07055-034";"V-BELT, 4L340";"";""]]; with a separate title line
    in front, both rows of the specification are returned. *)
Theorem synthetic_page_rows :
  extract_table_basic (text_page synthetic_page_text) 0 "WM63SLF" =
    [{| td_page := 1; td_model := "WM63SLF";
        td_title := "1  EM948630  DECAL, PUSH TO STOP  1";
        td_rows := [synthetic_row2] |}] /\
  table_rows_of_text ("SPARE PARTS LIST" ++ nl ++ synthetic_page_text) =
    [synthetic_row1; synthetic_row2].
Proof. split; vm_compute; reflexivity. Qed.

(** ** C3 *)

(** C3 (counterexample): the wrapped description line is neither merged
    into the row above it nor emitted; its text appears in no row. *)
Lemma wrapped_line_dropped :
  table_rows_of_text wrapped_page_text = [synthetic_row1].
Proof. vm_compute. reflexivity. Qed.

(** C3 (amended): lines are processed one at a time with no row buffer; a
    line whose stripped text does not start with a digit contributes
    nothing, so the rows of the page are those of the lines before it
    followed by those of the lines after it. *)
Theorem non_digit_line_contributes_nothing (title c : string)
  (before after : list string) :
  starts_with_digit (strip c) = false ->
  table_rows_of title (before ++ c :: after)%list =
  (table_rows_of title before ++ table_rows_of title after)%list.
Proof.
  intros H. rewrite table_rows_of_app. simpl.
  rewrite (process_line_no_digit _ _ H). reflexivity.
Qed.

Lemma non_digit_line_contributes_nothing_witness :
  table_rows_of "ENGINE PARTS LIST" (["1  EM948630  DECAL, PUSH TO STOP  1"]
    ++ "WITH ADHESIVE BACKING" :: [])%list = [synthetic_row1].
Proof.
  rewrite (non_digit_line_contributes_nothing "ENGINE PARTS LIST"
             "WITH ADHESIVE BACKING" ["1  EM948630  DECAL, PUSH TO STOP  1"] []).
  - vm_compute. reflexivity.
  - vm_compute. reflexivity.
Defined.

(** ** C8 *)

(** C8 (counterexample): a data row that only contains the header word
    [MIXER] inside a longer line is skipped, although it is neither a header
    word nor the page title and splits into four fields. *)
Lemma header_substring_line_skipped :
  line_skipped "ENGINE PARTS LIST" mixer_row = true /\
  ~ In mixer_row skip_words /\ mixer_row <> "ENGINE PARTS LIST" /\
  row_data_of mixer_row = Some ["1"; "EM948630"; "MIXER PADDLE"; "1"] /\
  process_line "ENGINE PARTS LIST" mixer_row = None.
Proof.
  split; [vm_compute; reflexivity|].
  split; [vm_compute; intuition discriminate|].
  split; [discriminate|].
  split; vm_compute; reflexivity.
Qed.

(** C8 (amended): a line is skipped when its stripped text is empty or
    shorter than 10 characters, when it equals the page title up to case, or
    when its upper-cased form contains any of [NO.], [PART NO.],
    [PART NAME], [QTY], [REMARKS], [PAGE], [MIXER], [MANUAL], [REV.]
    anywhere; such a line never yields a row.  Any other line is not
    skipped: it goes on to the row patterns. *)
Theorem header_word_line_yields_no_row (title raw : string) :
  ((strip raw = EmptyString \/ String.length (strip raw) < 10 \/
    upper (strip raw) = upper title \/
    exists w, In w skip_words /\ contains w (upper (strip raw)) = true) ->
   process_line title raw = None) /\
  (~ (strip raw = EmptyString \/ String.length (strip raw) < 10 \/
      upper (strip raw) = upper title \/
      exists w, In w skip_words /\ contains w (upper (strip raw)) = true) ->
   line_row_data title raw = row_data_of (strip raw)).
Proof.
  assert (Hsk : line_skipped title (strip raw) = true <->
    (strip raw = EmptyString \/ String.length (strip raw) < 10 \/
     upper (strip raw) = upper title \/
     exists w, In w skip_words /\ contains w (upper (strip raw)) = true)).
  { unfold line_skipped.
    rewrite !orb_true_iff, String.eqb_eq, Nat.ltb_lt, existsb_exists, String.eqb_eq.
    tauto. }
  split.
  - intros H. apply Hsk in H.
    unfold process_line, line_row_data. rewrite H. reflexivity.
  - intros H. unfold line_row_data.
    destruct (line_skipped title (strip raw)) eqn:Hl; [|reflexivity].
    exfalso. exact (H (proj1 Hsk eq_refl)).
Qed.

Lemma header_word_line_yields_no_row_witness :
  process_line "ENGINE PARTS LIST" mixer_row = None /\
  process_line "ENGINE PARTS LIST" "  Engine Parts List " = None /\
  process_line "ENGINE PARTS LIST" "3  EM94" = None /\
  line_row_data "ENGINE PARTS LIST" "1  EM948630  DECAL, PUSH TO STOP  1" =
    row_data_of "1  EM948630  DECAL, PUSH TO STOP  1".
Proof.
  split; [|split; [|split]].
  - apply (proj1 (header_word_line_yields_no_row "ENGINE PARTS LIST" mixer_row)).
    right; right; right. exists "MIXER". split; [vm_compute; intuition|].
    vm_compute. reflexivity.
  - apply (proj1 (header_word_line_yields_no_row "ENGINE PARTS LIST"
                    "  Engine Parts List ")).
    right; right; left. vm_compute. reflexivity.
  - apply (proj1 (header_word_line_yields_no_row "ENGINE PARTS LIST" "3  EM94")).
    right; left. vm_compute. lia.
  - apply (proj2 (header_word_line_yields_no_row "ENGINE PARTS LIST"
                    "1  EM948630  DECAL, PUSH TO STOP  1")).
    vm_compute. intros [H | [H | [H | (w & Hw & Hc)]]];
      [discriminate | lia | discriminate |].
    destruct Hw as [<- | [<- | [<- | [<- | [<- | [<- | [<- | [<- | [<- | []]]]]]]]]];
      discriminate.
Defined.

(** ** The classifier *)

Lemma fold_data_row_step (lines : list string) (n : nat) :
  fold_left data_row_step lines n = n + List.length (filter is_data_line lines).
Proof.
  revert n; induction lines as [|raw r IH]; intros n; simpl; [lia|].
  rewrite IH. unfold data_row_step, is_data_line.
  destruct (String.eqb (strip raw) EmptyString); simpl; [reflexivity|].
  destruct (looks_like_data_row (strip raw)); simpl; lia.
Qed.

(** C4 (counterexample): a page passing the screen, with no header token
    and three data rows after its fifteenth line, is classified as a
    diagram, while the rule over all lines of the page says table. *)
Lemma late_rows_not_table :
  passes_screen late_rows_text = true /\ header_hits late_rows_text = 0 /\
  spec_data_row_hits late_rows_text = 3 /\ spec_is_table late_rows_text = true /\
  simple_table_check late_rows_text = false.
Proof. vm_compute. repeat split. Qed.

(** C4 (amended): the page is labelled Table iff the header-hit count is at
    least 2 or at least 3 of the first 15 lines are, once stripped,
    non-empty and match [^\d+\s+[A-Z0-9\-]{4,}], [^\d+\.+[A-Z0-9\-]{4,}] or
    [^\d+.*[A-Z0-9\-]{5,}.*[A-Za-z]]; lines after the 15th are not counted. *)
Theorem simple_table_check_first_15_lines (text : string) :
  simple_table_check text =
  (2 <=? header_hits text) ||
  (3 <=? List.length (filter is_data_line (firstn 15 (split_lines text)))).
Proof.
  unfold simple_table_check, data_row_count.
  rewrite fold_data_row_step. reflexivity.
Qed.

Lemma prefix_app_contains (s1 s2 u : string) :
  String.prefix (s1 ++ s2) u = true -> contains s2 u = true.
Proof.
  revert u; induction s1 as [|c s1 IH]; intros u H.
  - destruct u; simpl in *; rewrite H; reflexivity.
  - destruct u as [|b u]; simpl in H; [discriminate|].
    destruct (ascii_dec c b); [|discriminate].
    simpl. rewrite (IH u H). apply orb_true_r.
Qed.

Lemma contains_weaken (n1 n2 u : string) :
  (forall v, String.prefix n1 v = true -> contains n2 v = true) ->
  contains n1 u = true -> contains n2 u = true.
Proof.
  intros Hp. induction u as [|c u IH]; cbn [contains].
  - rewrite orb_false_r. intros H. apply Hp in H. exact H.
  - intros H. apply orb_true_iff in H as [H|H].
    + apply Hp in H. exact H.
    + rewrite (IH H). apply orb_true_r.
Qed.

(** C10: a page whose upper-cased text contains [PART NO.] also contains
    [NO.], so it has at least two header hits and is always a table. *)
Theorem part_no_page_is_table (text : string) :
  contains "PART NO." (upper text) = true -> simple_table_check text = true.
Proof.
  intros H.
  assert (Hno : contains "NO." (upper text) = true).
  { apply (contains_weaken "PART NO."); [|exact H].
    intros v Hv. apply (prefix_app_contains "PART " "NO." v). exact Hv. }
  unfold simple_table_check, header_hits, table_indicators.
  simpl filter. rewrite Hno, H. reflexivity.
Qed.

Lemma part_no_page_is_table_witness :
  simple_table_check "PART NO." = true.
Proof. apply part_no_page_is_table. vm_compute. reflexivity. Defined.

(** ** The per-page loop *)

(** C5 (counterexample): a page with 40 non-whitespace characters whose
    stripped text is 157 characters long is not skipped: it is treated as a
    diagram and contributes the rendered page. *)
Lemma sparse_page_not_skipped :
  non_space_count sparse_text = 40 /\ String.length (strip sparse_text) = 157 /\
  r_images (process_page "WM63SLF" 1 sparse_drawing_page (empty_results "WM63SLF"))
    = [ImgDiagram "WM63SLF" 2].
Proof. vm_compute. repeat split. Qed.

(** C5 (amended): a page whose text, stripped of leading and trailing
    whitespace ([len(text.strip())], inner whitespace counted), is shorter
    than 100 characters is skipped whatever its drawings and images: the
    results are left unchanged, so it adds no table and no image. *)
Theorem short_page_skipped (model_name : string) (page_num : nat) (page : Page)
  (res : Results) (text : string) :
  pg_text page = Some text -> String.length (strip text) < 100 ->
  process_page model_name page_num page res = res.
Proof.
  intros Ht Hlen. unfold process_page. rewrite Ht.
  apply Nat.ltb_lt in Hlen. rewrite Hlen. reflexivity.
Qed.

Lemma short_page_skipped_witness :
  process_page "WM63SLF" 3
    {| pg_text := Some short_text; pg_images := [PixBuilt 60 80 true];
       pg_drawings := 500; pg_render_ok := true |}
    (empty_results "WM63SLF") = empty_results "WM63SLF".
Proof.
  apply (short_page_skipped _ _ _ _ short_text).
  - reflexivity.
  - vm_compute. lia.
Defined.

(** ** Documents without the anchor *)

Lemma find_spare_parts_from_none (pages : list Page) (n : nat) :
  (forall pg text, In pg pages -> pg_text pg = Some text ->
     contains spare_parts_marker (upper text) = false) ->
  find_spare_parts_from n pages = None.
Proof.
  revert n; induction pages as [|pg r IH]; intros n H; simpl; [reflexivity|].
  destruct (pg_text pg) as [text|] eqn:Ht.
  - pose proof (H pg text (or_introl eq_refl) Ht) as Hc.
    unfold spare_parts_marker in Hc. rewrite Hc.
    apply IH. intros pg' t' Hin. apply H. right; exact Hin.
  - apply IH. intros pg' t' Hin. apply H. right; exact Hin.
Qed.

(** C6: when no readable page contains [SUGGESTED SPARE PARTS] in its
    upper-cased text, the anchor is not found and the result has no spare
    parts, no tables and no images (status success), whatever the pages
    hold. *)
Theorem no_anchor_empty_result (pdf_path : string) (doc : list Page) :
  (forall pg text, In pg doc -> pg_text pg = Some text ->
     contains spare_parts_marker (upper text) = false) ->
  find_spare_parts_page_simple doc = None /\
  process_pdf_simple pdf_path (Opened doc) =
    Some {| r_model_name := extract_model_name_simple pdf_path;
            r_spare_parts_data := []; r_images := []; r_tables := [];
            r_status := StSuccess |}.
Proof.
  intros H.
  assert (Hf : find_spare_parts_page_simple doc = None)
    by (apply find_spare_parts_from_none; exact H).
  split; [exact Hf|].
  unfold process_pdf_simple. rewrite Hf. reflexivity.
Qed.

Lemma no_anchor_empty_result_witness :
  process_pdf_simple "input_pdfs/WM63SLF-rev-0-parts-manual.pdf" (Opened no_anchor_doc) =
    Some {| r_model_name := "WM63SLF"; r_spare_parts_data := []; r_images := [];
            r_tables := []; r_status := StSuccess |}.
Proof.
  destruct (no_anchor_empty_result "input_pdfs/WM63SLF-rev-0-parts-manual.pdf"
              no_anchor_doc) as [_ H].
  - intros pg text [<- | [<- | []]] Ht; injection Ht as <-; vm_compute; reflexivity.
  - rewrite H. vm_compute. reflexivity.
Defined.

(** ** Faults at the document level *)

(** C9 (counterexample): for a path that does not exist the caller gets
    [None], not a result with an error status. *)
Lemma missing_file_no_result :
  ~ exists res, process_pdf_simple "input_pdfs/WM63SLF.pdf" FileMissing = Some res.
Proof. intros [res H]. discriminate H. Qed.

Lemma skipn_nth_error_cons (doc : list Page) (n : nat) :
  n < List.length doc ->
  exists pg, nth_error doc n = Some pg /\ skipn n doc = pg :: skipn (S n) doc.
Proof.
  revert n; induction doc as [|pg r IH]; intros n Hn; simpl in Hn; [lia|].
  destruct n as [|n]; [exists pg; auto|].
  destruct (IH n ltac:(lia)) as (pg' & H1 & H2). exists pg'. simpl. auto.
Qed.

Lemma find_loop_ok (doc : list Page) (d n : nat) :
  n + d = List.length doc ->
  find_loop doc (seq n d) = Ret (find_spare_parts_from n (skipn n doc)).
Proof.
  revert n; induction d as [|d IH]; intros n Hd.
  - rewrite skipn_all2 by lia. reflexivity.
  - destruct (skipn_nth_error_cons doc n ltac:(lia)) as (pg & Hn & Hs).
    rewrite Hs. cbn [seq find_loop]. unfold doc_page. rewrite Hn.
    cbn [exc_bind find_spare_parts_from]. unfold get_text.
    destruct (pg_text pg) as [text|]; cbn [exc_bind try_except].
    + destruct (contains "SUGGESTED SPARE PARTS" (upper text)); [reflexivity|].
      apply IH. lia.
    + apply IH. lia.
Qed.

Lemma extract_spare_parts_exc_ok (doc : list Page) (k : nat) (m : string) :
  extract_spare_parts_exc doc k m =
    Ret (match nth_error doc k with
         | Some pg => extract_spare_parts_basic pg m
         | None => []
         end).
Proof.
  unfold extract_spare_parts_exc, doc_page.
  destruct (nth_error doc k) as [pg|]; [|reflexivity].
  unfold get_text, extract_spare_parts_basic. cbn [exc_bind].
  destruct (pg_text pg); reflexivity.
Qed.

Lemma extract_table_exc_ok (doc : list Page) (n : nat) (m : string) (pg : Page) :
  nth_error doc n = Some pg ->
  extract_table_exc doc n m = Ret (extract_table_basic pg n m).
Proof.
  intros Hn. unfold extract_table_exc, doc_page. rewrite Hn.
  unfold get_text, extract_table_basic. cbn [exc_bind].
  destruct (pg_text pg); reflexivity.
Qed.

Lemma embedded_loop_ok (m : string) (p idx : nat) (imgs : list Pixmap) :
  embedded_loop m p idx imgs = Ret (embedded_images m p idx imgs).
Proof.
  revert idx; induction imgs as [|img r IH]; intros idx; [reflexivity|].
  cbn [embedded_loop embedded_images]. rewrite IH.
  destruct img as [|w h ok]; [reflexivity|].
  destruct ((50 <? w) && (50 <? h)); [destruct ok|]; reflexivity.
Qed.

Lemma extract_image_exc_ok (page : Page) (n : nat) (m : string) :
  extract_image_exc page n m = Ret (extract_image_basic page n m).
Proof.
  unfold extract_image_exc, extract_image_basic, get_text.
  destruct (pg_text page); [|reflexivity].
  cbn [exc_bind]. rewrite embedded_loop_ok. cbn [exc_bind].
  destruct (100 <? pg_drawings page); [destruct (pg_render_ok page)|]; reflexivity.
Qed.

Lemma process_page_st_ok (doc : list Page) (m : string) (n : nat) (pg : Page)
  (res : Results) :
  nth_error doc n = Some pg ->
  process_page_st doc m n res = (Ret tt, process_page m n pg res).
Proof.
  intros Hn. unfold process_page_st, process_page, st_try, st_bind, st_lift.
  unfold doc_page. rewrite Hn. unfold get_text.
  destruct (pg_text pg) as [text|]; [|reflexivity].
  destruct (String.length (strip text) <? 100); [reflexivity|].
  destruct (simple_table_check text).
  - rewrite (extract_table_exc_ok doc n m pg Hn). reflexivity.
  - rewrite extract_image_exc_ok. reflexivity.
Qed.

Lemma page_loop_ok (doc : list Page) (m : string) (d n : nat) (res : Results) :
  n + d = List.length doc ->
  page_loop doc m (seq n d) res = (Ret tt, process_pages m n (skipn n doc) res).
Proof.
  revert n res; induction d as [|d IH]; intros n res Hd.
  - rewrite skipn_all2 by lia. reflexivity.
  - destruct (skipn_nth_error_cons doc n ltac:(lia)) as (pg & Hn & Hs).
    rewrite Hs. cbn [seq page_loop process_pages]. unfold st_bind at 1.
    rewrite (process_page_st_ok doc m n pg res Hn).
    apply IH. lia.
Qed.

(** C9 (amended): no fault escapes.  With the faults raised where PyMuPDF
    raises them and every [try]/[except] of the source in place, document
    processing never raises, and its outcome is the one of
    [process_pdf_simple]: a missing file gives [None] (no result); a file
    [fitz.open] refuses gives a result with status [error(detail)] and
    empty lists; an opened document always gives a result with status
    success, whatever faults its pages raise. *)
Theorem process_pdf_outcomes (pdf_path : string) :
  (forall file, process_pdf_exc pdf_path file = Ret (process_pdf_simple pdf_path file)) /\
  process_pdf_simple pdf_path FileMissing = None /\
  (forall detail, process_pdf_simple pdf_path (OpenFault detail) =
     Some {| r_model_name := extract_model_name_simple pdf_path;
             r_spare_parts_data := []; r_images := []; r_tables := [];
             r_status := StError detail |}) /\
  (forall doc, exists res,
     process_pdf_simple pdf_path (Opened doc) = Some res /\ r_status res = StSuccess).
Proof.
  split; [|split; [reflexivity|split; [reflexivity|]]].
  - intros [|detail|doc]; [reflexivity..|].
    unfold process_pdf_exc, process_pdf_simple, st_try, st_bind at 1, st_lift at 1.
    cbn [fitz_open]. unfold st_bind at 1, st_lift at 1.
    unfold find_spare_parts_page_exc, find_spare_parts_page_simple.
    rewrite (find_loop_ok doc (List.length doc) 0 eq_refl).
    change (skipn 0 doc) with doc.
    destruct (find_spare_parts_from 0 doc) as [k|].
    + unfold st_bind at 1, st_lift at 1. rewrite extract_spare_parts_exc_ok.
      unfold st_bind at 1, st_modify at 1. unfold st_bind at 1. cbv beta iota.
      destruct (Nat.le_gt_cases (S k) (List.length doc)) as [Hk|Hk].
      * rewrite (page_loop_ok doc _ (List.length doc - S k) (S k)) by lia.
        reflexivity.
      * replace (List.length doc - S k) with 0 by lia.
        rewrite skipn_all2 by lia. reflexivity.
    + reflexivity.
  - intros doc. eexists. split; [reflexivity|].
    destruct (find_spare_parts_page_simple doc); reflexivity.
Qed.

(** ** The model name *)

Lemma rev_run_tails (p : ascii -> bool) (s : string) :
  exists l, rev (run_tails p s) = drop_while p s :: l.
Proof.
  induction s as [|c t IH]; simpl.
  - exists []; reflexivity.
  - destruct (p c).
    + destruct IH as [l Hl]. rewrite Hl. exists (l ++ [String c t])%list.
      reflexivity.
    + exists []; reflexivity.
Qed.

Lemma digit_is_word (c : ascii) : is_digit c = true -> is_word c = true.
Proof. unfold is_word. intros ->. rewrite orb_true_r. reflexivity. Qed.

Lemma drop_word_after_digits (u : string) :
  drop_while is_word (drop_while is_digit u) = drop_while is_word u.
Proof.
  induction u as [|c t IH]; simpl; [reflexivity|].
  destruct (is_digit c) eqn:Hd.
  - rewrite (digit_is_word c Hd). exact IH.
  - reflexivity.
Qed.

Lemma take_drop_while (p : ascii -> bool) (s : string) :
  s = take_while p s ++ drop_while p s.
Proof.
  induction s as [|c t IH]; simpl; [reflexivity|].
  destruct (p c); simpl; [rewrite <- IH|]; reflexivity.
Qed.

Lemma substring_app_prefix (a b : string) :
  substring 0 (String.length (a ++ b) - String.length b) (a ++ b) = a.
Proof.
  assert (Hl : forall x y : string,
             String.length (x ++ y) = String.length x + String.length y).
  { induction x as [|c x IH]; intros y; simpl; [reflexivity|]. rewrite IH; reflexivity. }
  rewrite Hl. replace (String.length a + String.length b - String.length b)
    with (String.length a) by lia.
  induction a as [|c a IH]; simpl.
  - destruct b; reflexivity.
  - rewrite IH. reflexivity.
Qed.

Lemma rem_model_none (w : ascii) (t : string) :
  wm_token_at w t = None -> rem pat_model (String w t) = [].
Proof.
  unfold wm_token_at, pat_model. simpl.
  destruct (is_W_ci w) eqn:Hw; simpl; [|reflexivity].
  destruct t as [|m v]; simpl; [reflexivity|].
  destruct (is_M_ci m) eqn:Hm; simpl.
  - destruct v as [|d u]; simpl; [reflexivity|].
    destruct (is_digit d) eqn:Hd; simpl; [discriminate|reflexivity].
  - destruct v as [|d u]; reflexivity.
Qed.

Lemma rem_model_some (w : ascii) (t tok : string) :
  wm_token_at w t = Some tok ->
  exists rest l, rem pat_model (String w t) = rest :: l /\
    substring 0 (String.length (String w t) - String.length rest) (String w t) = tok.
Proof.
  unfold wm_token_at.
  destruct t as [|m [|d u]]; try discriminate.
  destruct (is_W_ci w) eqn:Hw; [|discriminate].
  destruct (is_M_ci m) eqn:Hm; [|discriminate].
  destruct (is_digit d) eqn:Hd; [|discriminate].
  intros H; simpl in H; injection H as <-.
  assert (Hrem : exists l, rem pat_model (String w (String m (String d u)))
                           = drop_while is_word u :: l).
  { unfold pat_model. simpl. rewrite ?Hw; simpl; rewrite ?Hm; simpl; rewrite ?Hd.
    destruct (rev_run_tails is_digit u) as [l1 Hl1]. rewrite Hl1. simpl.
    destruct (rev_run_tails is_word (drop_while is_digit u)) as [l2 Hl2].
    rewrite Hl2, drop_word_after_digits.
    eexists; reflexivity. }
  destruct Hrem as [l Hrem].
  exists (drop_while is_word u), l. split; [exact Hrem|].
  pose proof (take_drop_while is_word u) as Hu.
  set (a := String w (String m (String d (take_while is_word u)))).
  set (b := drop_while is_word u).
  assert (Hs : String w (String m (String d u)) = (a ++ b)%string).
  { unfold a, b. simpl. rewrite <- Hu. reflexivity. }
  rewrite Hs. apply substring_app_prefix.
Qed.

Lemma re_search_model (s : string) : re_search pat_model s = find_wm s.
Proof.
  induction s as [|w t IH].
  - reflexivity.
  - simpl find_wm. destruct (wm_token_at w t) as [tok|] eqn:Htok.
    + destruct (rem_model_some w t tok Htok) as (rest & l & Hr & Hsub).
      unfold re_search. rewrite Hr. rewrite Hsub. reflexivity.
    + unfold re_search. rewrite (rem_model_none w t Htok). fold re_search.
      exact IH.
Qed.

(** C7 (counterexample): the stem [ab12] has two letters followed by
    digits, but it is returned as it is, not upper-cased. *)
Lemma two_letter_stem_not_upper :
  model_of_stem "ab12" = "ab12" /\ model_of_stem "ab12" <> "AB12".
Proof. vm_compute. split; [reflexivity | discriminate]. Qed.

(** C7 (amended): only [W]/[w] then [M]/[m] then a digit is recognised: at
    the leftmost such position the result is the upper-cased run of those
    two letters and the word characters [[A-Za-z0-9_]] that follow;
    without such a position the stem is returned unchanged. *)
Theorem model_of_stem_spec (stem : string) :
  model_of_stem stem =
  match find_wm stem with
  | Some tok => upper tok
  | None => stem
  end.
Proof. unfold model_of_stem. rewrite re_search_model. reflexivity. Qed.

Example model_of_stem_manual :
  extract_model_name_simple "input_pdfs/WM63SLF-rev-0-parts-manual.pdf" = "WM63SLF".
Proof. vm_compute. reflexivity. Qed.

Example path_name_dot_components :
  extract_model_name_simple "wm5dir/." = "WM5DIR" /\ path_name "." = "" /\
  path_stem "./input_pdfs/./WM63SLF-rev-0.pdf" = "WM63SLF-rev-0".
Proof. vm_compute. repeat split. Qed.

Example split_spaced_row :
  re_split split_spaces2 "1  EM948630  DECAL, PUSH TO STOP  1"
  = ["1"; "EM948630"; "DECAL, PUSH TO STOP"; "1"].
Proof. vm_compute. reflexivity. Qed.

Example split_dotted_row :
  re_split split_dots3 "6............07055-034 .............................V-BELT, 4L340"
  = ["6"; "07055-034 "; "V-BELT, 4L340"].
Proof. vm_compute. reflexivity. Qed.

(** * Further properties of the source *)

(** ** [extract_image_basic] *)

Lemma in_embedded_images (m : string) (p idx : nat) (imgs : list Pixmap)
  (x : ImageRef) :
  In x (embedded_images m p idx imgs) ->
  exists j w h, x = ImgEmbedded m p (idx + j) /\
    nth_error imgs j = Some (PixBuilt w h true) /\ 50 < w /\ 50 < h.
Proof.
  revert idx; induction imgs as [|img r IH]; intros idx Hin; simpl in Hin; [contradiction|].
  assert (Hrest : In x (embedded_images m p (S idx) r) ->
            exists j w h, x = ImgEmbedded m p (idx + j) /\
              nth_error (img :: r) j = Some (PixBuilt w h true) /\ 50 < w /\ 50 < h).
  { intros H. destruct (IH (S idx) H) as (j & w & h & -> & Hn & Hw & Hh).
    exists (S j), w, h. rewrite Nat.add_succ_comm. auto. }
  destruct img as [|w h ok]; [exact (Hrest Hin)|].
  destruct ((50 <? w) && (50 <? h)) eqn:Hs; [|exact (Hrest Hin)].
  destruct ok; [|exact (Hrest Hin)].
  destruct Hin as [<- | Hin]; [|exact (Hrest Hin)].
  apply andb_true_iff in Hs as [Hw Hh]. apply Nat.ltb_lt in Hw, Hh.
  exists 0, w, h. rewrite Nat.add_0_r. auto.
Qed.

Lemma embedded_images_complete (m : string) (p idx : nat)
  (imgs : list Pixmap) (j w h : nat) :
  nth_error imgs j = Some (PixBuilt w h true) -> 50 < w -> 50 < h ->
  In (ImgEmbedded m p (idx + j)) (embedded_images m p idx imgs).
Proof.
  revert idx j; induction imgs as [|img r IH]; intros idx j Hn Hw Hh.
  - destruct j; discriminate.
  - destruct j as [|j]; simpl in Hn.
    + injection Hn as ->. simpl.
      apply Nat.ltb_lt in Hw, Hh. rewrite Hw, Hh. simpl. left. f_equal. lia.
    + rewrite <- Nat.add_succ_comm.
      assert (H := IH (S idx) j Hn Hw Hh). simpl.
      destruct img as [|w' h' ok]; [exact H|].
      destruct ((50 <? w') && (50 <? h')); [destruct ok|]; [right|..]; exact H.
Qed.

Lemma embedded_images_index_ge (m : string) (p idx : nat)
  (imgs : list Pixmap) (q i : nat) (m' : string) :
  In (ImgEmbedded m' q i) (embedded_images m p idx imgs) -> idx <= i.
Proof.
  intros H. destruct (in_embedded_images _ _ _ _ _ H) as (j & w & h & Heq & _).
  injection Heq as _ _ ->. lia.
Qed.

Lemma embedded_images_nodup (m : string) (p idx : nat) (imgs : list Pixmap) :
  NoDup (embedded_images m p idx imgs).
Proof.
  revert idx; induction imgs as [|img r IH]; intros idx; simpl; [constructor|].
  destruct img as [|w h ok]; [apply IH|].
  destruct ((50 <? w) && (50 <? h)); [destruct ok|]; [|apply IH..].
  constructor; [|apply IH].
  intros Hin. apply embedded_images_index_ge in Hin. lia.
Qed.

(** the diagram part of [extract_image_basic] *)
Lemma in_diagram_part (page : Page) (m : string) (p : nat) (x : ImageRef) :
  In x (if 100 <? pg_drawings page then
          if pg_render_ok page then [ImgDiagram m p] else [] else []) ->
  x = ImgDiagram m p /\ 100 < pg_drawings page /\ pg_render_ok page = true.
Proof.
  destruct (100 <? pg_drawings page) eqn:Hd; [|contradiction].
  destruct (pg_render_ok page); [|contradiction].
  intros [<- | []]. apply Nat.ltb_lt in Hd. auto.
Qed.

(** An embedded image is saved exactly when the page text can be read, its
    pixmap can be built and saved, and it is larger than 50 pixels in both
    directions; its reference carries the model, the 1-based page number
    and the 1-based position of the image on the page. *)
Theorem extract_image_embedded_iff (page : Page) (page_num : nat) (m : string)
  (i : nat) (m' : string) (q : nat) :
  In (ImgEmbedded m' q i) (extract_image_basic page page_num m) <->
  pg_text page <> None /\ m' = m /\ q = S page_num /\ 1 <= i /\
  exists w h, nth_error (pg_images page) (i - 1) = Some (PixBuilt w h true) /\
    50 < w /\ 50 < h.
Proof.
  unfold extract_image_basic. destruct (pg_text page) as [text|] eqn:Ht.
  2:{ split; [intros []|]. intros [H _]. exfalso. exact (H eq_refl). }
  rewrite in_app_iff. split.
  - intros [H | H].
    + destruct (in_embedded_images _ _ _ _ _ H) as (j & w & h & Heq & Hn & Hw & Hh).
      injection Heq as -> -> ->.
      split; [discriminate|]. repeat split; [lia|].
      exists w, h. replace (S j - 1) with j by lia. auto.
    + destruct (in_diagram_part _ _ _ _ H) as [Heq _]. discriminate.
  - intros (_ & -> & -> & Hi & w & h & Hn & Hw & Hh). left.
    replace i with (1 + (i - 1)) by lia.
    apply (embedded_images_complete _ _ _ _ _ _ _ Hn Hw Hh).
Qed.

Lemma extract_image_embedded_iff_witness :
  In (ImgEmbedded "WM63SLF" 4 2)
    (extract_image_basic
       {| pg_text := Some "DIAGRAM";
          pg_images := [PixBuilt 30 30 true; PixBuilt 60 80 true; PixBuilt 90 90 false];
          pg_drawings := 0; pg_render_ok := true |} 3 "WM63SLF") /\
  ~ In (ImgEmbedded "WM63SLF" 4 3)
    (extract_image_basic
       {| pg_text := Some "DIAGRAM";
          pg_images := [PixBuilt 30 30 true; PixBuilt 60 80 true; PixBuilt 90 90 false];
          pg_drawings := 0; pg_render_ok := true |} 3 "WM63SLF") /\
  ~ In (ImgEmbedded "WM63SLF" 4 1)
    (extract_image_basic
       {| pg_text := None; pg_images := [PixBuilt 60 80 true];
          pg_drawings := 0; pg_render_ok := true |} 3 "WM63SLF").
Proof.
  split; [|split].
  - apply extract_image_embedded_iff. split; [discriminate|]. repeat split; [lia|].
    exists 60, 80. split; [reflexivity|lia].
  - rewrite extract_image_embedded_iff.
    intros (_ & _ & _ & _ & w & h & Hn & _). discriminate Hn.
  - rewrite extract_image_embedded_iff. intros [H _]. exact (H eq_refl).
Defined.

(** The whole page is rendered exactly when the page text can be read, the
    page has more than 100 drawings, and rendering and saving succeed; at
    most one such reference is produced. *)
Theorem extract_image_diagram_iff (page : Page) (page_num : nat) (m m' : string)
  (q : nat) :
  In (ImgDiagram m' q) (extract_image_basic page page_num m) <->
  pg_text page <> None /\ m' = m /\ q = S page_num /\ 100 < pg_drawings page /\
  pg_render_ok page = true.
Proof.
  unfold extract_image_basic. destruct (pg_text page) as [text|] eqn:Ht.
  2:{ split; [intros []|]. intros [H _]. exfalso. exact (H eq_refl). }
  rewrite in_app_iff. split.
  - intros [H | H].
    + destruct (in_embedded_images _ _ _ _ _ H) as (j & w & h & Heq & _). discriminate.
    + destruct (in_diagram_part _ _ _ _ H) as (Heq & Hd & Hr).
      injection Heq as <- <-. split; [discriminate|]. auto.
  - intros (_ & -> & -> & Hd & Hr). right.
    apply Nat.ltb_lt in Hd. rewrite Hd, Hr. left. reflexivity.
Qed.

Lemma extract_image_diagram_iff_witness :
  In (ImgDiagram "WM63SLF" 2) (extract_image_basic sparse_drawing_page 1 "WM63SLF") /\
  ~ In (ImgDiagram "WM63SLF" 2)
      (extract_image_basic
         {| pg_text := None; pg_images := []; pg_drawings := 101;
            pg_render_ok := true |} 1 "WM63SLF").
Proof.
  split.
  - apply extract_image_diagram_iff.
    cbv [sparse_drawing_page pg_text pg_drawings pg_render_ok].
    split; [discriminate|]. repeat split; lia.
  - rewrite extract_image_diagram_iff. intros [H _]. exact (H eq_refl).
Defined.

(** No two saved images of a page share a reference, hence a file name. *)
Theorem extract_image_no_duplicates (page : Page) (page_num : nat) (m : string) :
  NoDup (extract_image_basic page page_num m).
Proof.
  unfold extract_image_basic. destruct (pg_text page); [|constructor].
  apply NoDup_app.
  - apply embedded_images_nodup.
  - destruct (100 <? pg_drawings page); [destruct (pg_render_ok page)|];
      repeat constructor; simpl; tauto.
  - intros a Ha Hb.
    destruct (in_embedded_images _ _ _ _ _ Ha) as (j & w & h & -> & _).
    destruct (in_diagram_part _ _ _ _ Hb) as [Heq _]. discriminate.
Qed.

(** ** Non-empty fields *)

Lemma clean_by_nonempty (f : string -> string) (parts : list string) :
  Forall nonempty
    (map f (filter (fun p => negb (String.eqb (f p) EmptyString)) parts)).
Proof.
  induction parts as [|x r IH]; simpl; [constructor|].
  destruct (String.eqb (f x) EmptyString) eqn:He; simpl; [exact IH|].
  constructor; [|exact IH].
  intros H. rewrite H in He. discriminate.
Qed.

Lemma row_data_of_nonempty (line : string) (rd : list string) :
  row_data_of line = Some rd -> Forall nonempty rd.
Proof.
  unfold row_data_of, clean_ws, clean_sd.
  destruct (re_matches pat_spaced line).
  - destruct (3 <=? _); [|discriminate]. intros H; injection H as <-.
    apply clean_by_nonempty.
  - destruct (contains "..." line && re_matches pat_dotted line).
    + intros H; injection H as <-. apply clean_by_nonempty.
    + destruct (re_matches pat_digits line && re_found pat_partno line);
        [|discriminate].
      destruct (2 <=? _); [|discriminate]. intros H; injection H as <-.
      apply clean_by_nonempty.
Qed.

Lemma join_with_nonempty (sep x : string) (r : list string) :
  nonempty x -> nonempty (join_with sep (x :: r)).
Proof.
  unfold nonempty. intros Hx. destruct r as [|y r]; simpl; [exact Hx|].
  destruct x; [contradiction|discriminate].
Qed.

(** ** [extract_spare_parts_basic] *)

(** Every spare-parts entry carries the document's model name and has a
    non-empty quantity, part number and description; it comes from a
    readable page, from a line whose stripped text has at least 10
    characters and starts with a digit. *)
Theorem spare_part_entries_well_formed (page : Page) (m : string) (e : SparePart) :
  In e (extract_spare_parts_basic page m) ->
  sp_model e = m /\ nonempty (sp_quantity e) /\ nonempty (sp_part_number e) /\
  nonempty (sp_description e) /\
  exists text raw, pg_text page = Some text /\ In raw (split_lines text) /\
    10 <= String.length (strip raw) /\ starts_with_digit (strip raw) = true.
Proof.
  unfold extract_spare_parts_basic.
  destruct (pg_text page) as [text|] eqn:Ht; [|simpl; tauto].
  intros Hin. apply in_flat_map in Hin as (raw & Hraw & Hin).
  destruct (spare_part_of_line m raw) as [e'|] eqn:He; [|contradiction].
  destruct Hin as [<- | []].
  unfold spare_part_of_line in He.
  destruct (String.eqb (strip raw) EmptyString || (String.length (strip raw) <? 10))
    eqn:Hlen; [discriminate|].
  apply orb_false_iff in Hlen as [_ Hlen]. apply Nat.ltb_ge in Hlen.
  destruct (re_matches pat_general (strip raw)) eqn:Hg; [|discriminate].
  destruct (3 <=? _); [|discriminate].
  assert (Hne := clean_by_nonempty strip_sd (re_split split_dots3_spaces3 (strip raw))).
  fold (clean_sd (re_split split_dots3_spaces3 (strip raw))) in Hne.
  destruct (clean_sd (re_split split_dots3_spaces3 (strip raw))) as [|c0 [|c1 rest]];
    try discriminate.
  destruct rest as [|c2 rest]; [discriminate|].
  injection He as <-. cbn [sp_model sp_quantity sp_part_number sp_description].
  inversion Hne as [|? ? H0 Hne1]; subst.
  inversion Hne1 as [|? ? H1 Hne2]; subst.
  inversion Hne2 as [|? ? H2 _]; subst.
  split; [reflexivity|]. split; [exact H0|]. split; [exact H1|].
  split; [exact (join_with_nonempty " " c2 rest H2)|].
  exists text, raw. split; [reflexivity|]. split; [exact Hraw|]. split; [exact Hlen|].
    destruct (starts_with_digit (strip raw)) eqn:Hd; [reflexivity|].
    unfold re_matches, pat_general in Hg. rewrite (rem_digits_head _ _ Hd) in Hg.
    discriminate.
Qed.

Lemma spare_part_entries_well_formed_witness :
  sp_model {| sp_model := "WM63SLF"; sp_quantity := "2"; sp_part_number := "EM948630";
              sp_description := "DECAL, PUSH TO STOP" |} = "WM63SLF".
Proof.
  apply (spare_part_entries_well_formed spare_page "WM63SLF").
  vm_compute. left. reflexivity.
Defined.

(** ** [extract_table_basic] *)

(** The table extractor returns no table or exactly one, for the 1-based
    page number and the model; its title is never empty (the fallback is
    [Parts Table - Page n]), it has at least one row, and the first two
    fields of every row are non-empty. *)
Theorem extract_table_shape (page : Page) (page_num : nat) (m : string) :
  extract_table_basic page page_num m = [] \/
  exists td, extract_table_basic page page_num m = [td] /\
    td_page td = S page_num /\ td_model td = m /\ nonempty (td_title td) /\
    td_rows td <> [] /\
    Forall (fun row => exists a b rest, row = a :: b :: rest /\ nonempty a /\ nonempty b)
      (td_rows td).
Proof.
  unfold extract_table_basic.
  destruct (pg_text page) as [text|]; [|left; reflexivity].
  destruct (table_rows_of (page_title_of text) (split_lines text)) as [|r0 rs] eqn:Hrows;
    [left; reflexivity|].
  right. eexists. split; [reflexivity|]. cbn [td_page td_model td_title td_rows].
  repeat split.
  - destruct (String.eqb (page_title_of text) EmptyString) eqn:Ht.
    + discriminate.
    + intros H. rewrite H in Ht. discriminate.
  - discriminate.
  - rewrite <- Hrows. apply Forall_forall. intros row Hin.
    destruct (in_table_rows_of _ _ _ Hin) as (raw & rd & _ & Hrd & Hlen & ->).
    unfold line_row_data in Hrd.
    destruct (line_skipped (page_title_of text) (strip raw)); [discriminate|].
    apply row_data_of_nonempty in Hrd.
    destruct rd as [|a [|b rest]]; simpl in Hlen; try lia.
    inversion Hrd as [|? ? Ha Hrd']; subst. inversion Hrd' as [|? ? Hb _]; subst.
    exists a, b, (firstn 3 (rest ++ repeat EmptyString (5 - S (S (List.length rest)))))%list.
    split; [reflexivity|]. auto.
Qed.

(** ** [save_results_simple] *)

Lemma substring_length_le (n : nat) (s : string) :
  String.length (substring 0 n s) <= n.
Proof.
  revert s; induction n as [|n IH]; intros s; destruct s; simpl; try lia.
  specialize (IH s). lia.
Qed.

(** Every sheet name has at most 31 characters. *)
Theorem sheet_name_length (td : TableData) : String.length (sheet_name td) <= 31.
Proof.
  unfold sheet_name.
  match goal with |- context [if 31 <? ?l then _ else _] =>
    destruct (31 <? l) eqn:H end.
  - apply substring_length_le.
  - apply Nat.ltb_ge in H. exact H.
Qed.

Lemma all_chars_substring (p : ascii -> bool) (n : nat) (s : string) :
  all_chars p s = true -> all_chars p (substring 0 n s) = true.
Proof.
  revert s; induction n as [|n IH]; intros s H; destruct s as [|c t]; simpl in *;
    auto.
  apply andb_true_iff in H as [Hc Ht]. rewrite Hc, (IH t Ht). reflexivity.
Qed.

Lemma sub_spaces_go_word (b : bool) (s : string) :
  all_chars (fun c => is_word c || is_space c) s = true ->
  all_chars is_word (sub_spaces_go b s) = true.
Proof.
  revert b; induction s as [|c t IH]; intros b H; simpl in *; [reflexivity|].
  apply andb_true_iff in H as [Hc Ht].
  destruct (is_space c) eqn:Hs.
  - destruct b; simpl; [apply IH; exact Ht|].
    rewrite (IH true Ht). reflexivity.
  - rewrite orb_false_r in Hc. simpl. rewrite Hc, (IH false Ht). reflexivity.
Qed.

Lemma drop_non_word_space_ok (s : string) :
  all_chars (fun c => is_word c || is_space c) (drop_non_word_space s) = true.
Proof.
  induction s as [|c t IH]; simpl; [reflexivity|].
  destruct (is_word c || is_space c) eqn:Hc; simpl; [rewrite Hc, IH|]; auto.
Qed.

(** The title part of a sheet name has at most 20 characters, all of them
    word characters [[A-Za-z0-9_]]: punctuation is removed and every run of
    whitespace becomes one underscore. *)
Theorem clean_sheet_title_word_chars (title : string) :
  all_chars is_word (clean_sheet_title title) = true /\
  String.length (clean_sheet_title title) <= 20.
Proof.
  unfold clean_sheet_title. split.
  - apply all_chars_substring, sub_spaces_go_word, drop_non_word_space_ok.
  - apply substring_length_le.
Qed.

(** A sheet whose rows all have five fields gets exactly the five generic
    column headers. *)
Theorem sheet_headers_five_columns (rows : list (list string)) :
  rows <> [] -> Forall (fun row => List.length row = 5) rows ->
  sheet_headers rows = generic_headers.
Proof.
  intros Hne Hall. unfold sheet_headers.
  assert (Hmax : fold_right Nat.max 0 (map (@List.length string) rows) = 5).
  { destruct rows as [|r0 rs]; [contradiction|].
    inversion Hall as [|? ? H0 Hrs]; subst. cbn [map fold_right]. rewrite H0.
    clear H0 Hall Hne. induction rs as [|r rs IH]; cbn [map fold_right]; [reflexivity|].
    inversion Hrs as [|? ? Hr Hrs']; subst. specialize (IH Hrs').
    rewrite Hr, Nat.max_assoc, Nat.max_id. exact IH. }
  destruct rows as [|r0 rs]; [contradiction|].
  rewrite Hmax. reflexivity.
Qed.

Lemma sheet_headers_five_columns_witness :
  sheet_headers [synthetic_row1; synthetic_row2] = generic_headers.
Proof.
  apply sheet_headers_five_columns; [discriminate|].
  repeat constructor.
Defined.

(** ** The pages after the anchor *)

Lemma extract_table_basic_cases (page : Page) (page_num : nat) (m : string) :
  extract_table_basic page page_num m = [] \/
  exists title rows,
    extract_table_basic page page_num m =
      [{| td_page := S page_num; td_model := m; td_title := title; td_rows := rows |}] /\
    Forall (fun row => List.length row = 5) rows.
Proof.
  unfold extract_table_basic.
  destruct (pg_text page) as [text|]; [|left; reflexivity].
  destruct (table_rows_of (page_title_of text) (split_lines text)) as [|r0 rs] eqn:Hrows;
    [left; reflexivity|].
  right. eexists; eexists; split; [reflexivity|].
  rewrite <- Hrows. apply Forall_forall. intros row Hin.
  destruct (in_table_rows_of _ _ _ Hin) as (raw & rd & _ & _ & _ & ->).
  apply pad_row_spec.
Qed.

Lemma extract_image_basic_page (page : Page) (page_num : nat) (m : string)
  (x : ImageRef) :
  In x (extract_image_basic page page_num m) ->
  image_page x = S page_num /\ image_model x = m.
Proof.
  unfold extract_image_basic. destruct (pg_text page); [|intros []].
  rewrite in_app_iff. intros [H | H].
  - destruct (in_embedded_images _ _ _ _ _ H) as (j & w & h & -> & _). auto.
  - destruct (in_diagram_part _ _ _ _ H) as [-> _]. auto.
Qed.

Lemma process_pages_spec (m : string) (n : nat) (pages : list Page) (res : Results) :
  r_model_name (process_pages m n pages res) = r_model_name res /\
  r_spare_parts_data (process_pages m n pages res) = r_spare_parts_data res /\
  r_status (process_pages m n pages res) = r_status res /\
  exists ts is,
    r_tables (process_pages m n pages res) = (r_tables res ++ ts)%list /\
    r_images (process_pages m n pages res) = (r_images res ++ is)%list /\
    StronglySorted lt (map td_page ts) /\ Forall (table_ok m n) ts /\
    Forall (image_ok m n) is.
Proof.
  revert n res; induction pages as [|pg r IH]; intros n res; simpl.
  - repeat split; auto. exists [], []. rewrite !app_nil_r.
    repeat split; constructor.
  - destruct (IH (S n) (process_page m n pg res))
      as (Hm & Hs & Hst & ts & is & Ht & Hi & Hsort & Hts & His).
    assert (Hstep : exists ts0 is0,
      process_page m n pg res =
        {| r_model_name := r_model_name res; r_spare_parts_data := r_spare_parts_data res;
           r_images := (r_images res ++ is0)%list; r_tables := (r_tables res ++ ts0)%list;
           r_status := r_status res |} /\
      (ts0 = [] \/ ts0 = extract_table_basic pg n m) /\
      (is0 = [] \/ is0 = extract_image_basic pg n m)).
    { unfold process_page.
      destruct (pg_text pg) as [text|].
      - destruct (String.length (strip text) <? 100).
        + exists [], []. rewrite !app_nil_r. destruct res; auto.
        + destruct (simple_table_check text).
          * exists (extract_table_basic pg n m), []. rewrite app_nil_r.
            destruct res; auto.
          * exists [], (extract_image_basic pg n m). rewrite app_nil_r.
            destruct res; auto.
      - exists [], []. rewrite !app_nil_r. destruct res; auto. }
    destruct Hstep as (ts0 & is0 & Hp & Hts0 & His0).
    rewrite Hp in Hm, Hs, Hst, Ht, Hi |- *. cbn in Hm, Hs, Hst, Ht, Hi.
    split; [exact Hm|]. split; [exact Hs|]. split; [exact Hst|].
    exists (ts0 ++ ts)%list, (is0 ++ is)%list.
    rewrite Ht, Hi, <- !app_assoc. split; [reflexivity|]. split; [reflexivity|].
    assert (Hts0' : ts0 = [] \/ exists title rows,
              ts0 = [{| td_page := S n; td_model := m; td_title := title; td_rows := rows |}]
              /\ Forall (fun row => List.length row = 5) rows).
    { destruct Hts0 as [-> | ->]; [left; reflexivity|].
      apply extract_table_basic_cases. }
    split; [|split].
    + destruct Hts0' as [-> | (title & rows & -> & _)]; [exact Hsort|].
      simpl. constructor; [exact Hsort|].
      apply Forall_map. apply (Forall_impl _ (fun td H => proj1 H) Hts).
    + apply Forall_app. split.
      * destruct Hts0' as [-> | (title & rows & -> & Hrows)]; [constructor|].
        constructor; [|constructor]. unfold table_ok; cbn. auto.
      * apply (Forall_impl _ (fun td H => conj (Nat.lt_succ_l _ _ (proj1 H)) (proj2 H)) Hts).
    + apply Forall_app. split.
      * destruct His0 as [-> | ->]; [constructor|].
        apply Forall_forall. intros x Hx.
        destruct (extract_image_basic_page _ _ _ _ Hx) as [Hp1 Hp2].
        unfold image_ok. rewrite Hp1, Hp2. auto.
      * apply (Forall_impl _ (fun x H => conj (Nat.lt_succ_l _ _ (proj1 H)) (proj2 H)) His).
Qed.

(** ** [process_pdf_simple] *)

(** For every opened document, the tables of the result are in strictly
    increasing page order (at most one per page), all carry the
    document's model name and have rows of exactly five fields, and every
    image reference carries the model name. *)
Theorem process_pdf_tables_ordered (pdf_path : string) (doc : list Page) (res : Results) :
  process_pdf_simple pdf_path (Opened doc) = Some res ->
  StronglySorted lt (map td_page (r_tables res)) /\
  Forall (fun td => td_model td = r_model_name res /\
            Forall (fun row => List.length row = 5) (td_rows td)) (r_tables res) /\
  Forall (fun x => image_model x = r_model_name res) (r_images res).
Proof.
  unfold process_pdf_simple. intros H; injection H as <-.
  destruct (find_spare_parts_page_simple doc) as [k|];
    cbn [set_status r_tables r_model_name r_images].
  - match goal with |- context [process_pages ?a ?b ?c ?d] =>
      destruct (process_pages_spec a b c d)
        as (Hm & _ & _ & ts & is & Ht & Hi & Hsort & Hts & His) end.
    rewrite Hm, Ht, Hi. cbn [app r_tables r_images r_model_name].
    split; [exact Hsort|]. split.
    + apply (Forall_impl _ (fun td H => proj2 H) Hts).
    + apply (Forall_impl _ (fun x H => proj2 H) His).
  - repeat constructor.
Qed.

Lemma process_pdf_tables_ordered_witness :
  exists res,
    process_pdf_simple "WM63SLF.pdf" (Opened tables_doc) = Some res /\
    map td_page (r_tables res) = [3; 5] /\
    StronglySorted lt (map td_page (r_tables res)) /\
    Forall (fun td => td_model td = r_model_name res /\
              Forall (fun row => List.length row = 5) (td_rows td)) (r_tables res) /\
    Forall (fun x => image_model x = r_model_name res) (r_images res).
Proof.
  exists (match process_pdf_simple "WM63SLF.pdf" (Opened tables_doc) with
          | Some r => r | None => empty_results "" end).
  assert (H : process_pdf_simple "WM63SLF.pdf" (Opened tables_doc) =
              Some (match process_pdf_simple "WM63SLF.pdf" (Opened tables_doc)
                    with Some r => r | None => empty_results "" end))
    by (vm_compute; reflexivity).
  split; [exact H|]. split; [vm_compute; reflexivity|].
  exact (process_pdf_tables_ordered _ _ _ H).
Defined.

Lemma find_spare_parts_from_spec (pages : list Page) (n k : nat) :
  find_spare_parts_from n pages = Some k ->
  n <= k /\
  (exists pg text, nth_error pages (k - n) = Some pg /\ pg_text pg = Some text /\
     contains spare_parts_marker (upper text) = true) /\
  (forall j pg text, j < k - n -> nth_error pages j = Some pg -> pg_text pg = Some text ->
     contains spare_parts_marker (upper text) = false).
Proof.
  revert n; induction pages as [|pg r IH]; intros n H; simpl in H; [discriminate|].
  assert (Hrest : find_spare_parts_from (S n) r = Some k ->
    n <= k /\
    (exists pg' text, nth_error (pg :: r) (k - n) = Some pg' /\ pg_text pg' = Some text /\
       contains spare_parts_marker (upper text) = true) /\
    (forall j pg' text, j < k - n -> nth_error (pg :: r) j = Some pg' ->
       pg_text pg' = Some text -> contains spare_parts_marker (upper text) = false) ->
    (forall text, pg_text pg = Some text ->
       contains spare_parts_marker (upper text) = false) ->
    n <= k /\
    (exists pg' text, nth_error (pg :: r) (k - n) = Some pg' /\ pg_text pg' = Some text /\
       contains spare_parts_marker (upper text) = true) /\
    (forall j pg' text, j < k - n -> nth_error (pg :: r) j = Some pg' ->
       pg_text pg' = Some text -> contains spare_parts_marker (upper text) = false)).
  { intros _ Hx _. exact Hx. }
  clear Hrest.
  destruct (pg_text pg) as [text|] eqn:Ht;
    [destruct (contains "SUGGESTED SPARE PARTS" (upper text)) eqn:Hc|].
  - injection H as <-. split; [lia|]. split.
    + exists pg, text. rewrite Nat.sub_diag. auto.
    + intros j pg' t' Hj. lia.
  - destruct (IH (S n) H) as (Hle & (pg' & t' & Hn & Ht' & Hc') & Hbefore).
    split; [lia|]. split.
    + exists pg', t'. replace (k - n) with (S (k - S n)) by lia. auto.
    + intros [|j] pg'' t'' Hj Hnth Ht''; simpl in Hnth.
      * injection Hnth as <-. rewrite Ht in Ht''. injection Ht'' as <-. exact Hc.
      * apply (Hbefore j pg'' t''); [lia|exact Hnth|exact Ht''].
  - destruct (IH (S n) H) as (Hle & (pg' & t' & Hn & Ht' & Hc') & Hbefore).
    split; [lia|]. split.
    + exists pg', t'. replace (k - n) with (S (k - S n)) by lia. auto.
    + intros [|j] pg'' t'' Hj Hnth Ht''; simpl in Hnth.
      * injection Hnth as <-. rewrite Ht in Ht''. discriminate.
      * apply (Hbefore j pg'' t''); [lia|exact Hnth|exact Ht''].
Qed.

(** The anchor is the first readable page whose upper-cased text contains
    [SUGGESTED SPARE PARTS]: that page is at the returned index and no
    readable page before it contains the marker. *)
Theorem anchor_is_first_marked_page (doc : list Page) (k : nat) :
  find_spare_parts_page_simple doc = Some k ->
  (exists pg text, nth_error doc k = Some pg /\ pg_text pg = Some text /\
     contains spare_parts_marker (upper text) = true) /\
  (forall j pg text, j < k -> nth_error doc j = Some pg -> pg_text pg = Some text ->
     contains spare_parts_marker (upper text) = false).
Proof.
  intros H. destruct (find_spare_parts_from_spec doc 0 k H) as (_ & Hat & Hbefore).
  rewrite Nat.sub_0_r in Hat, Hbefore. split; [exact Hat|exact Hbefore].
Qed.

Lemma anchor_is_first_marked_page_witness :
  exists pg text, nth_error anchored_doc 1 = Some pg /\ pg_text pg = Some text /\
    contains spare_parts_marker (upper text) = true.
Proof.
  apply (anchor_is_first_marked_page anchored_doc 1). vm_compute. reflexivity.
Defined.

(** When the anchor is at index [k], the spare-parts list is what the
    spare-parts extractor gives for that page, and every table and image of
    the result comes from a page after it (1-based page numbers above
    [k + 1]). *)
Theorem anchor_bounds_results (pdf_path : string) (doc : list Page) (k : nat) :
  find_spare_parts_page_simple doc = Some k ->
  exists anchor res,
    nth_error doc k = Some anchor /\
    process_pdf_simple pdf_path (Opened doc) = Some res /\
    r_spare_parts_data res = extract_spare_parts_basic anchor (extract_model_name_simple pdf_path) /\
    Forall (fun td => S k < td_page td) (r_tables res) /\
    Forall (fun x => S k < image_page x) (r_images res).
Proof.
  intros Hf.
  destruct (find_spare_parts_from_spec doc 0 k Hf) as (_ & (anchor & _ & Hn & _) & _).
  rewrite Nat.sub_0_r in Hn.
  exists anchor. eexists. split; [exact Hn|]. split.
  - unfold process_pdf_simple. rewrite Hf. reflexivity.
  - rewrite Hn.
    match goal with |- context [process_pages ?a ?b ?c ?d] =>
      destruct (process_pages_spec a b c d)
        as (_ & Hs & _ & ts & is & Ht & Hi & _ & Hts & His) end.
    cbn [set_status r_spare_parts_data r_tables r_images]. rewrite Hs, Ht, Hi.
    cbn [app r_spare_parts_data r_tables r_images]. split; [reflexivity|]. split.
    + apply (Forall_impl _ (fun td H => proj1 H) Hts).
    + apply (Forall_impl _ (fun x H => proj1 H) His).
Qed.

Lemma anchor_bounds_results_witness :
  exists anchor res,
    nth_error anchored_doc 1 = Some anchor /\
    process_pdf_simple "WM63SLF.pdf" (Opened anchored_doc) = Some res /\
    r_spare_parts_data res = extract_spare_parts_basic anchor (extract_model_name_simple "WM63SLF.pdf") /\
    Forall (fun td => 2 < td_page td) (r_tables res) /\
    Forall (fun x => 2 < image_page x) (r_images res).
Proof.
  apply (anchor_bounds_results "WM63SLF.pdf" anchored_doc 1). vm_compute. reflexivity.
Defined.

(** ** The model name *)

Lemma find_wm_head (s tok : string) :
  find_wm s = Some tok -> exists c t, tok = String c t.
Proof.
  induction s as [|w t IH]; simpl; [discriminate|].
  destruct (wm_token_at w t) as [tok'|] eqn:Hw.
  - intros H; injection H as <-. unfold wm_token_at in Hw.
    destruct t as [|m [|d u]]; try discriminate.
    destruct (is_W_ci w && is_M_ci m && is_digit d); [|discriminate].
    injection Hw as <-. eauto.
  - exact IH.
Qed.

(** A non-empty file stem always gives a non-empty model name. *)
Theorem model_of_stem_nonempty (stem : string) :
  nonempty stem -> nonempty (model_of_stem stem).
Proof.
  unfold model_of_stem. rewrite re_search_model.
  destruct (find_wm stem) as [tok|] eqn:Hf; [|tauto].
  intros _. destruct (find_wm_head _ _ Hf) as (c & t & ->). simpl. discriminate.
Qed.

Lemma model_of_stem_nonempty_witness : nonempty (model_of_stem "manual").
Proof. apply model_of_stem_nonempty. discriminate. Defined.
